(** * version_check.py: version resolution pipelines

    A shallow embedding of [version_check.py] and the properties of its
    version ordering, its fallback chains and its report.

    Conventions of the embedding.
    - A Python [str] is a [string]; a character is a code point below 256.
      On that range the regular expression class [\d] is exactly the ten
      ASCII digits, while [str.isdigit] also accepts the superscripts
      U+00B2, U+00B3 and U+00B9.
    - A Python [float] that is not negative and not a NaN is a multiple of
      2^-1074 or the infinity; [float()] of a decimal literal is rounded to
      the nearest representable value, ties to even.
    - An exception is the text [str(e)] of an instance of [Exception].
    - [requests], [BeautifulSoup], [datetime] and the standard output are
      the environment of the program: every property is stated for all
      their behaviours. *)

From Stdlib Require Import List String Ascii Bool Arith NArith ZArith Lia.
From Stdlib Require Import Sorting.Sorted Sorting.Permutation.
Import ListNotations.

Local Open Scope list_scope.
Local Open Scope string_scope.

(** ** Characters and [str] methods *)

Module PyStr.

Definition code (c : ascii) : N := N_of_ascii c.

(** The class [\d] of [re] on code points below 256. *)
Definition is_decimal (c : ascii) : bool :=
  ((48 <=? code c) && (code c <=? 57))%N.

(** One character of [str.isdigit]: the decimal digits and the
    superscript digits two, three and one. *)
Definition isdigit_char (c : ascii) : bool :=
  is_decimal c || (code c =? 178)%N || (code c =? 179)%N || (code c =? 185)%N.

(** One character of [str.isspace]. *)
Definition isspace_char (c : ascii) : bool :=
  (((9 <=? code c) && (code c <=? 13)) || ((28 <=? code c) && (code c <=? 32))
   || (code c =? 133) || (code c =? 160))%N.

Fixpoint all_chars (p : ascii -> bool) (s : string) : bool :=
  match s with
  | EmptyString => true
  | String c s' => p c && all_chars p s'
  end.

Fixpoint any_char (p : ascii -> bool) (s : string) : bool :=
  match s with
  | EmptyString => false
  | String c s' => p c || any_char p s'
  end.

(** [s.isdigit()]: at least one character, all of them digits. *)
Definition isdigit (s : string) : bool :=
  match s with
  | EmptyString => false
  | _ => all_chars isdigit_char s
  end.

(** [s.replace(c, '', 1)]: the first occurrence of [c] is removed. *)
Fixpoint remove_first (c : ascii) (s : string) : string :=
  match s with
  | EmptyString => EmptyString
  | String d s' => if Ascii.eqb d c then s' else String d (remove_first c s')
  end.

(** [s.replace(c, t)]: every occurrence of the character [c] becomes [t]. *)
Fixpoint replace_char (c : ascii) (t : string) (s : string) : string :=
  match s with
  | EmptyString => EmptyString
  | String d s' =>
      if Ascii.eqb d c then t ++ replace_char c t s'
      else String d (replace_char c t s')
  end.

Fixpoint lstrip (s : string) : string :=
  match s with
  | EmptyString => EmptyString
  | String c s' => if isspace_char c then lstrip s' else s
  end.

Fixpoint rstrip (s : string) : string :=
  match s with
  | EmptyString => EmptyString
  | String c s' =>
      match rstrip s' with
      | EmptyString => if isspace_char c then EmptyString else String c EmptyString
      | r => String c r
      end
  end.

(** [s.strip()] *)
Definition strip (s : string) : string := rstrip (lstrip s).

(** [sub in s] *)
Fixpoint contains (sub s : string) : bool :=
  prefix sub s ||
  match s with
  | EmptyString => false
  | String _ s' => contains sub s'
  end.

(** The first [n] characters of [s]. *)
Fixpoint take (n : nat) (s : string) : string :=
  match n, s with
  | S n', String c s' => String c (take n' s')
  | _, _ => EmptyString
  end.

(** [c * n] for a one-character string. *)
Fixpoint repeat_char (c : ascii) (n : nat) : string :=
  match n with
  | O => EmptyString
  | S n' => String c (repeat_char c n')
  end.

End PyStr.

(** ** Regular expressions: the backtracking matcher of [re] *)

Module Re.

Inductive regex : Type :=
| Eps
| Chr (p : ascii -> bool)
| Cat (r1 r2 : regex)
| Alt (r1 r2 : regex)
| Star (r : regex).

(** [r+] and [r?], both greedy. *)
Definition Plus (r : regex) : regex := Cat r (Star r).
Definition Opt (r : regex) : regex := Alt r Eps.

(** [run n r s k]: match [r] at the start of [s] and hand the rest of the
    string to the continuation [k]; [None] makes the matcher backtrack.
    Alternatives are tried left to right and a star takes as many
    iterations as it can before it gives one back.  An iteration of a star
    has to consume a character; [n] bounds the number of iterations and is
    never reached when it exceeds the length of [s] ([run_fuel]). *)
Fixpoint run {R : Type} (n : nat) : regex -> string -> (string -> option R) -> option R :=
  fix go (r : regex) (s : string) (k : string -> option R) {struct r} : option R :=
    match r with
    | Eps => k s
    | Chr p =>
        match s with
        | String c s' => if p c then k s' else None
        | EmptyString => None
        end
    | Cat r1 r2 => go r1 s (fun s1 => go r2 s1 k)
    | Alt r1 r2 =>
        match go r1 s k with
        | Some x => Some x
        | None => go r2 s k
        end
    | Star r1 =>
        match n with
        | O => k s
        | S n' =>
            match go r1 s (fun s1 =>
                             if Nat.ltb (String.length s1) (String.length s)
                             then run n' (Star r1) s1 k else None) with
            | Some x => Some x
            | None => k s
            end
        end
    end.

(** [re.match(r, s)]: the rest of [s] after the match, if there is one. *)
Definition match_prefix (r : regex) (s : string) : option string :=
  run (S (String.length s)) r s (fun rest => Some rest).

(** The text of a match that left [rest] of [s]. *)
Definition matched (s rest : string) : string :=
  PyStr.take (String.length s - String.length rest) s.

(** [re.findall(r, s)] for a pattern without groups: the matches, left to
    right, none overlapping another.  [skip] counts the characters of the
    last match that are still to be passed over. *)
Fixpoint findall_from (r : regex) (skip : nat) (s : string) : list string :=
  match s with
  | EmptyString =>
      match skip, match_prefix r s with
      | O, Some _ => [EmptyString]
      | _, _ => []
      end
  | String _ s' =>
      match skip with
      | S k => findall_from r k s'
      | O =>
          match match_prefix r s with
          | Some rest =>
              let m := matched s rest in
              m :: findall_from r (String.length m - 1) s'
          | None => findall_from r 0 s'
          end
      end
  end.

Definition findall (r : regex) (s : string) : list string := findall_from r 0 s.

(** The language of a regular expression. *)
Inductive lang : regex -> string -> Prop :=
| lang_eps : lang Eps ""
| lang_chr p c : p c = true -> lang (Chr p) (String c "")
| lang_cat r1 r2 s1 s2 : lang r1 s1 -> lang r2 s2 -> lang (Cat r1 r2) (s1 ++ s2)
| lang_alt_l r1 r2 s : lang r1 s -> lang (Alt r1 r2) s
| lang_alt_r r1 r2 s : lang r2 s -> lang (Alt r1 r2) s
| lang_star_nil r : lang (Star r) ""
| lang_star_cons r s1 s2 : lang r s1 -> lang (Star r) s2 -> lang (Star r) (s1 ++ s2).

End Re.

(** ** The patterns of the program *)

Definition is_char (c : ascii) : ascii -> bool := Ascii.eqb c.

(** [\d] *)
Definition digit : Re.regex := Re.Chr PyStr.is_decimal.

(** [r'\d+\.\d+|\d+'], the pattern of both sort keys. *)
Definition number_re : Re.regex :=
  Re.Alt (Re.Cat (Re.Plus digit) (Re.Cat (Re.Chr (is_char ".")) (Re.Plus digit)))
         (Re.Plus digit).

(** [r'V?\d+(\.\d+)*'] under [re.IGNORECASE]. *)
Definition version_re : Re.regex :=
  Re.Cat (Re.Opt (Re.Chr (fun c => is_char "V" c || is_char "v" c)))
         (Re.Cat (Re.Plus digit)
                 (Re.Star (Re.Cat (Re.Chr (is_char ".")) (Re.Plus digit)))).

(** ** Floating point numbers and the values of a sort key *)

Module PyFloat.

(** [Finite n] is the number n * 2^-1074: every finite double that is not
    negative has that form. *)
Inductive float : Type :=
| Finite (n : N)
| Infinity.

(** 2^1024 in units of 2^-1074: the first value too large for a double. *)
Definition overflow : N := 2 ^ 2098.

(** The double nearest to p / q, ties to even: 53 significant bits, no
    finer than one unit. *)
Definition round (p q : N) : float :=
  let P := N.shiftl p 1074 in
  let e := (N.size (P / q) - 53)%N in
  let d := N.shiftl q e in
  let m := (P / d)%N in
  let r := (P mod d)%N in
  let m' := match (2 * r ?= d)%N with
            | Lt => m
            | Gt => (m + 1)%N
            | Eq => if N.even m then m else (m + 1)%N
            end in
  let v := N.shiftl m' e in
  if (v <? overflow)%N then Finite v else Infinity.

(** The double of a whole number that needs no rounding. *)
Definition whole (n : N) : float := Finite (N.shiftl n 1074).

Definition digit_value (c : ascii) : N := (PyStr.code c - 48)%N.

Fixpoint digits_value (acc : N) (s : string) : N :=
  match s with
  | EmptyString => acc
  | String c s' => digits_value (10 * acc + digit_value c)%N s'
  end.

(** The text before the first dot and the text after it. *)
Fixpoint split_dot (s : string) : string * string :=
  match s with
  | EmptyString => (EmptyString, EmptyString)
  | String c s' =>
      if Ascii.eqb c "." then (EmptyString, s')
      else let (a, b) := split_dot s' in (String c a, b)
  end.

End PyFloat.

(** The outcome of a call: a value, or an exception with its text. *)
Inductive outcome (A : Type) : Type :=
| Return (a : A)
| Raise (e : string).

Arguments Return {A} a.
Arguments Raise {A} e.

(** [float(s)] on the strings that the guard of the sort key lets through,
    which are made of digits in the sense of [str.isdigit] and of dots.
    Such a string is a literal when its characters other than one dot are
    decimal digits and there is at least one; otherwise [float] raises
    ValueError (the text shows [s] as [repr] does when [s] has no quote and
    no escape). *)
Definition py_float (s : string) : outcome PyFloat.float :=
  let (ip, fp) := PyFloat.split_dot s in
  if PyStr.all_chars PyStr.is_decimal ip && PyStr.all_chars PyStr.is_decimal fp
     && negb (String.eqb (ip ++ fp) "")
  then Return (PyFloat.round (PyFloat.digits_value 0 (ip ++ fp)) (10 ^ N.of_nat (String.length fp)))
  else Raise ("could not convert string to float: '" ++ s ++ "'").

(** A component of a sort key: a float, or the int of the [else] branch. *)
Inductive num : Type :=
| Float (f : PyFloat.float)
| Int (z : Z).

(** The exact value of a number in units of 2^-1074; [None] is infinity. *)
Definition num_val (x : num) : option Z :=
  match x with
  | Float (PyFloat.Finite n) => Some (Z.of_N n)
  | Float PyFloat.Infinity => None
  | Int z => Some (z * 2 ^ 1074)%Z
  end.

(** [x < y] and [x == y] on numbers. *)
Definition num_ltb (x y : num) : bool :=
  match num_val x, num_val y with
  | Some a, Some b => (a <? b)%Z
  | Some _, None => true
  | None, _ => false
  end.

Definition num_eqb (x y : num) : bool :=
  match num_val x, num_val y with
  | Some a, Some b => (a =? b)%Z
  | None, None => true
  | _, _ => false
  end.

(** [a < b] on lists: the first pair of unequal items decides, and a
    proper prefix is smaller. *)
Fixpoint key_ltb (a b : list num) : bool :=
  match a, b with
  | [], [] => false
  | [], _ :: _ => true
  | _ :: _, [] => false
  | x :: a', y :: b' => if num_eqb x y then key_ltb a' b' else num_ltb x y
  end.

(** ** [list.sort(key=..., reverse=...)] *)

Section ListSort.
Context {A K : Type}.
Variable ltb : K -> K -> bool.

(** [x] goes before the first item that is not smaller than it. *)
Fixpoint insert (x : K * A) (l : list (K * A)) : list (K * A) :=
  match l with
  | [] => [x]
  | y :: l' => if ltb (fst y) (fst x) then y :: insert x l' else x :: y :: l'
  end.

(** A stable sort in ascending order that compares with [<] only.  The
    order of the keys being total, every stable sort returns this list. *)
Fixpoint stable_sort (l : list (K * A)) : list (K * A) :=
  match l with
  | [] => []
  | x :: l' => insert x (stable_sort l')
  end.

(** [ascending x y]: [x] may stand before [y] in ascending order. *)
Definition ascending (x y : K * A) : Prop := ltb (fst y) (fst x) = false.

(** The keys are computed first, and an exception of [key] leaves the
    sort; with [reverse] the list is reversed, sorted and reversed
    again, which keeps equal items in their order. *)
Fixpoint decorate (key : A -> outcome K) (l : list A) : outcome (list (K * A)) :=
  match l with
  | [] => Return []
  | x :: l' =>
      match key x with
      | Raise e => Raise e
      | Return k =>
          match decorate key l' with
          | Raise e => Raise e
          | Return d => Return ((k, x) :: d)
          end
      end
  end.

Definition list_sort (key : A -> outcome K) (reverse : bool) (l : list A)
  : outcome (list A) :=
  match decorate key l with
  | Raise e => Raise e
  | Return d =>
      Return (map snd (if reverse then rev (stable_sort (rev d)) else stable_sort d))
  end.
End ListSort.

(** ** The sort key of both primer pipelines *)

(** [float(n) if n.replace('.', '', 1).isdigit() else 0] *)
Definition key_component (n : string) : outcome num :=
  if PyStr.isdigit (PyStr.remove_first "." n)
  then match py_float n with
       | Return f => Return (Float f)
       | Raise e => Raise e
       end
  else Return (Int 0).

Fixpoint key_components (tokens : list string) : outcome (list num) :=
  match tokens with
  | [] => Return []
  | n :: rest =>
      match key_component n with
      | Raise e => Raise e
      | Return c =>
          match key_components rest with
          | Raise e => Raise e
          | Return cs => Return (c :: cs)
          end
      end
  end.

(** [lambda x: [... for n in re.findall(r'\d+\.\d+|\d+', x)]] *)
Definition sort_key (x : string) : outcome (list num) :=
  key_components (Re.findall number_re x).

(** [versions.sort(key=lambda x: ..., reverse=True)] *)
Definition sort_versions (versions : list string) : outcome (list string) :=
  list_sort key_ltb sort_key true versions.

(** ** The environment: documents, responses, the network, dates *)

(** What [find_all], [find], [select] and [select_one] are asked. *)
Inductive query : Type :=
| Css (selector : string)
| Tag (name : string) (attr : option (string * list string)).

(** An element of a parsed document (the document itself included): its
    text, its attributes, and the elements it answers to each query, in
    document order. *)
#[local] Unset Elimination Schemes.
Inductive element : Type :=
| Element (text : string) (attrs : list (string * string))
          (answers : query -> list element).
#[local] Set Elimination Schemes.

Definition text (e : element) : string :=
  match e with Element t _ _ => t end.

Definition attrs (e : element) : list (string * string) :=
  match e with Element _ a _ => a end.

Definition select (e : element) (selector : string) : list element :=
  match e with Element _ _ f => f (Css selector) end.

Definition select_one (e : element) (selector : string) : option element :=
  hd_error (select e selector).

Definition find_all (e : element) (name : string)
    (attr : option (string * list string)) : list element :=
  match e with Element _ _ f => f (Tag name attr) end.

Definition find (e : element) (name : string)
    (attr : option (string * list string)) : option element :=
  hd_error (find_all e name attr).

Fixpoint lookup {V : Type} (k : string) (l : list (string * V)) : option V :=
  match l with
  | [] => None
  | (k', v) :: l' => if String.eqb k k' then Some v else lookup k l'
  end.

Definition has_attr (e : element) (k : string) : bool :=
  match lookup k (attrs e) with Some _ => true | None => false end.

(** [e.get(k, '')], and [e[k]] where [k] is known to be there. *)
Definition get_attr (e : element) (k : string) : string :=
  match lookup k (attrs e) with Some v => v | None => "" end.

(** A value of the decoded API answer: a string, or anything else with
    the text [str] gives it. *)
Inductive value : Type :=
| Str (s : string)
| Other (shown : string).

Definition str (v : value) : string :=
  match v with Str s => s | Other t => t end.

(** A response: what [raise_for_status()] does, what [json()] gives (the
    decoded answer is known by what [data[key]] does), and the document
    that [BeautifulSoup] makes of [text]. *)
Record response : Type := {
  raise_for_status : outcome unit;
  json : outcome (string -> outcome value);
  soup : element
}.

(** The collaborators of one run.  No address is requested twice in a run,
    so a function of the address describes the network.
    [strptime_ymd v] is [datetime.strptime(v, "%Y-%m-%dT%H:%M:%SZ")
    .strftime("%Y-%m-%d")] and [fromisoformat_ymd s] is
    [datetime.fromisoformat(s).strftime("%Y-%m-%d")].
    [stdout_write line] is what writing [line] to the standard output
    does: it may raise, as UnicodeEncodeError does for a text that the
    encoding of the output lacks, or OSError for an output that is
    closed. *)
Record world : Type := {
  requests_get : string -> outcome response;
  strptime_ymd : value -> outcome string;
  fromisoformat_ymd : string -> outcome string;
  stdout_write : string -> outcome unit
}.

(** ** Calls with effects: requests made, lines printed, exceptions *)

Record io : Type := {
  requested : list string;
  printed : list string
}.

Definition start : io := {| requested := []; printed := [] |}.

Definition M (A : Type) : Type := io -> outcome A * io.

Definition ret {A : Type} (a : A) : M A := fun st => (Return a, st).

Definition bind {A B : Type} (m : M A) (f : A -> M B) : M B :=
  fun st =>
    match m st with
    | (Return a, st') => f a st'
    | (Raise e, st') => (Raise e, st')
    end.

Definition lift {A : Type} (o : outcome A) : M A := fun st => (o, st).

(** [try: m  except Exception as e: handler e] *)
Definition try_except {A : Type} (m : M A) (handler : string -> M A) : M A :=
  fun st =>
    match m st with
    | (Return a, st') => (Return a, st')
    | (Raise e, st') => handler e st'
    end.

Notation "x <- m ;; f" := (bind m (fun x => f))
  (at level 61, m at next level, right associativity).
Notation "m ;;; f" := (bind m (fun _ => f))
  (at level 61, right associativity).

(** [requests.get(url)]; the headers of a request are constants. *)
Definition http_get (w : world) (url : string) : M response :=
  fun st =>
    (requests_get w url,
     {| requested := requested st ++ [url]; printed := printed st |}).

(** [print(line)]: the line is written, or the exception of the output
    leaves the call and nothing is written. *)
Definition print (w : world) (line : string) : M unit :=
  fun st =>
    match stdout_write w line with
    | Return _ =>
        (Return tt, {| requested := requested st; printed := printed st ++ [line] |})
    | Raise e => (Raise e, st)
    end.

(** ** The result of a pipeline

    The dictionaries that the four functions build, by their keys:
    [{"version", "published_date", "url"}],
    [{"latest_version", "all_versions", "url"}], [{"all_versions", "url"}]
    and [{"error"}]. *)
Inductive info : Type :=
| Release (version : value) (published_date : string) (url : value)
| Latest (latest_version : string) (all_versions : list string) (url : string)
| Versions (all_versions : list string) (url : string)
| Error (error : string).

(** ["error" in d] *)
Definition has_error (d : info) : bool :=
  match d with Error _ => true | _ => false end.

Definition dq : string := String (ascii_of_nat 34) "".

Definition pangolin_api : string :=
  "https://api.github.com/repos/cov-lineages/pangolin/releases/latest".
Definition pangolin_releases : string :=
  "https://github.com/cov-lineages/pangolin/releases".
Definition pangolin_tags : string :=
  "https://github.com/cov-lineages/pangolin/tags".
Definition pangolin_tag_url (version : string) : string :=
  "https://github.com/cov-lineages/pangolin/releases/tag/" ++ version.
Definition artic_api : string :=
  "https://api.github.com/repos/artic-network/fieldbioinformatics/releases/latest".
Definition sarscov2_url : string :=
  "https://github.com/artic-network/primer-schemes/tree/master/sars-cov-2".
Definition ncov2019_url : string :=
  "https://github.com/artic-network/primer-schemes/tree/master/nCoV-2019".

Definition release_link : string := "a[href*=" ++ dq ++ "/releases/tag/" ++ dq ++ "]".
Definition hovercard (tag : string) : string :=
  tag ++ "[data-hovercard-type=" ++ dq ++ "release" ++ dq ++ "]".

(** ** check_pangolin_version *)

(** The loops [for selector in ...: ... if found: break]: the first
    element of the first selector that selects anything. *)
Fixpoint first_selected (e : element) (selectors : list string) : option element :=
  match selectors with
  | [] => None
  | selector :: rest =>
      match select e selector with
      | x :: _ => Some x
      | [] => first_selected e rest
      end
  end.

(** The date of a [relative-time] element, or "Unknown". *)
Definition published_of (w : world) (e : element) : M string :=
  match select_one e "relative-time" with
  | Some time_element =>
      if has_attr time_element "datetime"
      then lift (fromisoformat_ymd w
                   (PyStr.replace_char "Z" "+00:00" (get_attr time_element "datetime")))
      else ret "Unknown"
  | None => ret "Unknown"
  end.

Definition html_release (version published_date : string) : info :=
  Release (Str version) published_date (Str (pangolin_tag_url version)).

(** The search of every link of the tags page, and what is returned when
    it finds nothing. *)
Definition link_scan (soup : element) : M info :=
  let all_links := find_all soup "a" None in
  let version_links :=
    filter (fun link => PyStr.contains "/releases/tag/" (get_attr link "href")
                        && PyStr.contains "v" (text link)) all_links in
  match version_links with
  | link :: _ => ret (html_release (PyStr.strip (text link)) "Unknown")
  | [] => ret (Error "Could not find Pangolin version information")
  end.

(** The branch [if not release_element]. *)
Definition tags_page (w : world) : M info :=
  response <- http_get w pangolin_tags ;;
  lift (raise_for_status response) ;;;
  let soup := soup response in
  match select_one soup "div.Box-row" with
  | Some tag_element =>
      match select_one tag_element release_link with
      | Some tag_link =>
          let version := PyStr.strip (text tag_link) in
          published_date <- published_of w tag_element ;;
          ret (html_release version published_date)
      | None => link_scan soup
      end
  | None => link_scan soup
  end.

Definition selectors : list string :=
  ["div.release-header"; "div.release"; "div.Box-row"; hovercard "div"].

Definition version_selectors : list string :=
  ["a.Link--primary"; release_link; hovercard "a"].

(** The body of the inner [try]. *)
Definition releases_page (w : world) : M info :=
  response <- http_get w pangolin_releases ;;
  lift (raise_for_status response) ;;;
  let soup := soup response in
  match first_selected soup selectors with
  | None => tags_page w
  | Some release_element =>
      match first_selected release_element version_selectors with
      | None => ret (Error "Could not find version tag")
      | Some version_tag =>
          let version := PyStr.strip (text version_tag) in
          published_date <- published_of w release_element ;;
          ret (html_release version published_date)
      end
  end.

(** The body of the outer [try]. *)
Definition pangolin_latest_release (w : world) : M info :=
  response <- http_get w pangolin_api ;;
  lift (raise_for_status response) ;;;
  data <- lift (json response) ;;
  version <- lift (data "tag_name") ;;
  published_at <- lift (data "published_at") ;;
  published_date <- lift (strptime_ymd w published_at) ;;
  html_url <- lift (data "html_url") ;;
  ret (Release version published_date html_url).

Definition check_pangolin_version (w : world) : M info :=
  try_except (pangolin_latest_release w) (fun e =>
    try_except (releases_page w) (fun nested_e =>
      ret (Error ("Failed to retrieve Pangolin version: " ++ e ++ ", then " ++ nested_e)))).

(** ** check_artic_version *)

Definition check_artic_version (w : world) : M info :=
  try_except
    (response <- http_get w artic_api ;;
     lift (raise_for_status response) ;;;
     data <- lift (json response) ;;
     version <- lift (data "tag_name") ;;
     published_at <- lift (data "published_at") ;;
     published_date <- lift (strptime_ymd w published_at) ;;
     html_url <- lift (data "html_url") ;;
     ret (Release version published_date html_url))
    (fun e => ret (Error ("Failed to retrieve ARTIC version: " ++ e))).

(** ** check_artic_sarscov2_primers *)

Definition class_ (names : list string) : option (string * list string) :=
  Some ("class", names).

Definition is_match (r : Re.regex) (s : string) : bool :=
  match Re.match_prefix r s with Some _ => true | None => false end.

Definition nonempty {A : Type} (l : list A) : bool :=
  match l with [] => false | _ => true end.

(** The first loop over the rows: the names of the directory rows that
    look like a version. *)
Fixpoint version_names (rows : list element) : list string :=
  match rows with
  | [] => []
  | row :: rest =>
      match find row "svg" (class_ ["octicon-file-directory-fill"]) with
      | Some _ =>
          match find row "a" (class_ ["js-navigation-open"]) with
          | Some name_element =>
              let name := PyStr.strip (text name_element) in
              if is_match version_re name
              then name :: version_names rest
              else version_names rest
          | None => version_names rest
          end
      | None => version_names rest
      end
  end.

(** The comprehension of the fallback: the names of all directory rows. *)
Fixpoint directory_names (rows : list element) : list string :=
  match rows with
  | [] => []
  | row :: rest =>
      match find row "svg" (class_ ["octicon-file-directory-fill"]),
            find row "a" (class_ ["js-navigation-open"]) with
      | Some _, Some name_element =>
          PyStr.strip (text name_element) :: directory_names rest
      | _, _ => directory_names rest
      end
  end.

Definition check_artic_sarscov2_primers (w : world) : M info :=
  try_except
    (response <- http_get w sarscov2_url ;;
     lift (raise_for_status response) ;;;
     let soup := soup response in
     let rows := find_all soup "div" (class_ ["Box-row"]) in
     let versions := version_names rows in
     let versions := if nonempty versions then versions else directory_names rows in
     versions <- lift (sort_versions versions) ;;
     match versions with
     | [] => ret (Error "No primer versions found")
     | latest_version :: _ =>
         ret (Latest latest_version versions (sarscov2_url ++ "/" ++ latest_version))
     end)
    (fun e => ret (Error ("Failed to retrieve ARTIC SARS-CoV-2 primers: " ++ e))).

(** ** check_artic_ncov2019_primers *)

Definition mem (x : string) (l : list string) : bool :=
  existsb (String.eqb x) l.

(** The loop over all links. *)
Fixpoint link_names (links : list element) : list string :=
  match links with
  | [] => []
  | a_tag :: rest =>
      if has_attr a_tag "href"
         && PyStr.contains "/tree/master/nCoV-2019/" (get_attr a_tag "href")
         && negb (String.eqb (PyStr.strip (text a_tag)) "")
      then
        let dir_name := PyStr.strip (text a_tag) in
        if negb (String.eqb dir_name "..") && negb (String.eqb dir_name ".")
           && negb (String.eqb dir_name "nCoV-2019")
        then dir_name :: link_names rest
        else link_names rest
      else link_names rest
  end.

(** [[x for x in versions if not (x in seen or seen.add(x))]] *)
Fixpoint remove_duplicates (seen : list string) (versions : list string) : list string :=
  match versions with
  | [] => []
  | x :: rest =>
      if mem x seen then remove_duplicates seen rest
      else x :: remove_duplicates (x :: seen) rest
  end.

(** The loop over the elements with the role of a row. *)
Fixpoint role_row_names (rows : list element) : list string :=
  match rows with
  | [] => []
  | row :: rest =>
      match find row "svg" (class_ ["octicon-file-directory-fill"]) with
      | Some _ =>
          match find row "a" None with
          | Some name_link =>
              if negb (String.eqb (PyStr.strip (text name_link)) "")
              then PyStr.strip (text name_link) :: role_row_names rest
              else role_row_names rest
          | None => role_row_names rest
          end
      | None => role_row_names rest
      end
  end.

(** The loop over the elements with the class of a row or of an item. *)
Fixpoint class_row_names (rows : list element) : list string :=
  match rows with
  | [] => []
  | row :: rest =>
      match find row "svg" (class_ ["octicon-file-directory-fill"; "directory"]) with
      | Some _ =>
          match find row "a" None with
          | Some name_link => PyStr.strip (text name_link) :: class_row_names rest
          | None => class_row_names rest
          end
      | None => class_row_names rest
      end
  end.

(** The list of names before it is sorted: the three searches in turn. *)
Definition detected_versions (soup : element) : list string :=
  let versions := remove_duplicates [] (link_names (find_all soup "a" None)) in
  let versions :=
    if nonempty versions then versions
    else role_row_names (find_all soup "div" (Some ("role", ["row"]))) in
  if nonempty versions then versions
  else class_row_names (find_all soup "div" (class_ ["Box-row"; "js-navigation-item"])).

(** [try: versions.sort(...)  except: pass] *)
Definition sorted_or_unchanged (versions : list string) : list string :=
  match sort_versions versions with
  | Return sorted => sorted
  | Raise _ => versions
  end.

Definition check_artic_ncov2019_primers (w : world) : M info :=
  try_except
    (response <- http_get w ncov2019_url ;;
     lift (raise_for_status response) ;;;
     let versions := detected_versions (soup response) in
     if nonempty versions
     then ret (Versions (sorted_or_unchanged versions) ncov2019_url)
     else ret (Error "Could not detect ARTIC primer versions from the GitHub page"))
    (fun e => ret (Error ("Failed to retrieve ARTIC nCoV-2019 primers: " ++ e))).

(** ** main *)

Definition nl : string := String (ascii_of_nat 10) "".

Definition rule (c : ascii) : string := PyStr.repeat_char c 60.

(** The [if "error" in info: ... else: ...] after each of the first two
    lookups; a dictionary without the key asked for raises KeyError. *)
Definition print_release (w : world) (d : info) : M unit :=
  match d with
  | Error e => print w ("  " ++ e)
  | Release version published_date url =>
      print w ("  Latest version: " ++ str version) ;;;
      print w ("  Published date: " ++ published_date) ;;;
      print w ("  URL: " ++ str url)
  | Latest _ _ _ | Versions _ _ => lift (Raise "'version'")
  end.

Fixpoint print_versions (w : world) (versions : list string) : M unit :=
  match versions with
  | [] => ret tt
  | version :: rest => print w ("    - " ++ version) ;;; print_versions w rest
  end.

(** The same after the third lookup. *)
Definition print_schemes (w : world) (d : info) : M unit :=
  match d with
  | Error e => print w ("  " ++ e)
  | Versions all_versions url | Latest _ all_versions url =>
      print w "  Available primer versions:" ;;;
      print_versions w all_versions ;;;
      print w ("  URL: " ++ url)
  | Release _ _ url =>
      print w "  Available primer versions:" ;;;
      print w ("  URL: " ++ str url)
  end.

(** Every [print] of [main] stands outside the [try] blocks. *)
Definition main (w : world) : M unit :=
  print w (rule "=") ;;;
  print w "CHECKING LATEST VERSIONS OF SARS-CoV-2 TOOLS" ;;;
  print w (rule "=") ;;;
  print w (nl ++ "1. Pangolin Repository") ;;;
  print w (rule "-") ;;;
  pangolin_info <- check_pangolin_version w ;;
  print_release w pangolin_info ;;;
  print w (nl ++ "2. ARTIC Field Bioinformatics") ;;;
  print w (rule "-") ;;;
  artic_info <- check_artic_version w ;;
  print_release w artic_info ;;;
  print w (nl ++ "3. ARTIC nCoV-2019 Primer Schemes") ;;;
  print w (rule "-") ;;;
  schemes_info <- check_artic_ncov2019_primers w ;;
  print_schemes w schemes_info ;;;
  print w (nl ++ rule "=").


(** ** Notions used in the statements *)

(** A string of decimal digits, at least one. *)
Definition digits (s : string) : Prop :=
  PyStr.all_chars PyStr.is_decimal s = true /\ s <> "".

(** The key of a label; [sort_key] always returns ([sort_key_key_of]). *)
Definition key_of (x : string) : list num :=
  match sort_key x with
  | Return k => k
  | Raise _ => []
  end.

(** [not_below a b]: the key of [a] is not smaller than the key of [b], so
    [a] may stand before [b] in descending order. *)
Definition not_below (a b : string) : Prop :=
  key_ltb (key_of a) (key_of b) = false.

(** [key_equiv k x]: the key of [x] is neither smaller nor greater than [k]. *)
Definition key_equiv (k : list num) (x : string) : bool :=
  negb (key_ltb k (key_of x)) && negb (key_ltb (key_of x) k).

(** A label without any decimal digit. *)
Definition no_digits (x : string) : bool :=
  negb (PyStr.any_char PyStr.is_decimal x).

(** The labels with their keys, as the sort sees them. *)
Definition decorated (labels : list string) : list (list num * string) :=
  map (fun x => (key_of x, x)) labels.

Definition keyed (p : list num * string) : Prop := fst p = key_of (snd p).

(** What a call adds to the requests and to the output. *)
Definition extend (st d : io) : io :=
  {| requested := requested st ++ requested d;
     printed := printed st ++ printed d |}.

(** A call is uniform when its outcome does not depend on the requests made
    and the lines printed before it, and it only adds to them. *)
Definition uniform {A : Type} (m : M A) : Prop :=
  forall st, m st = (fst (m start), extend st (snd (m start))).

(** The outcome of a call made first, the requests it makes and the lines
    it prints. *)
Definition result {A : Type} (m : M A) : outcome A := fst (m start).
Definition requests {A : Type} (m : M A) : list string := requested (snd (m start)).
Definition output {A : Type} (m : M A) : list string := printed (snd (m start)).

(** The shapes of the dictionaries that each function may return. *)
Definition release_or_error (d : info) : Prop :=
  match d with Release _ _ _ | Error _ => True | _ => False end.

Definition latest_or_error (d : info) : Prop :=
  match d with
  | Latest latest all _ => hd_error all = Some latest
  | Error _ => True
  | _ => False
  end.

Definition versions_or_error (d : info) : Prop :=
  match d with Versions all _ => all <> [] | Error _ => True | _ => False end.

(** The names of the second primer pipeline after the search by role, and
    after the search by class. *)
Definition role_names (soup : element) : list string :=
  role_row_names (find_all soup "div" (Some ("role", ["row"]))).

Definition class_names (soup : element) : list string :=
  class_row_names (find_all soup "div" (class_ ["Box-row"; "js-navigation-item"])).

(** The names that the first primer pipeline sorts. *)
Definition chosen_names (rows : list element) : list string :=
  if nonempty (version_names rows) then version_names rows else directory_names rows.

(** A row of the listing that the first primer pipeline takes for a
    directory: it has the icon of a directory and a link with a name. *)
Definition is_directory_row (row : element) : bool :=
  match find row "svg" (class_ ["octicon-file-directory-fill"]),
        find row "a" (class_ ["js-navigation-open"]) with
  | Some _, Some _ => true
  | _, _ => false
  end.

(** The rows of a fetched listing. *)
Definition box_rows (page : response) : list element :=
  find_all (soup page) "div" (class_ ["Box-row"]).

(** The names that the link scan of the second primer pipeline keeps. *)
Definition first_seen_links (soup : element) : list string :=
  remove_duplicates [] (link_names (find_all soup "a" None)).

Definition self_reference (x : string) : bool :=
  String.eqb x ".." || String.eqb x "." || String.eqb x "nCoV-2019".

(** ** Environments used as examples *)

Definition leaf (t : string) (a : list (string * string)) : element :=
  Element t a (fun _ => []).

Definition page (answers : query -> list element) : response :=
  {| raise_for_status := Return tt;
     json := Raise "Expecting value: line 1 column 1 (char 0)";
     soup := Element "" [] answers |}.

(** A row with the icon of a directory and a link named [name]. *)
Definition directory_row (name : string) : element :=
  Element name []
    (fun q => match q with
              | Tag "svg" _ => [leaf "" []]
              | Tag "a" _ => [leaf name []]
              | _ => []
              end).

(** A network on which [pages] answer and every other request fails; the
    output takes every line. *)
Definition network (pages : list (string * response)) : world :=
  {| requests_get := fun url =>
       match lookup url pages with
       | Some r => Return r
       | None => Raise "Connection refused"
       end;
     strptime_ymd := fun _ => Raise "time data does not match format";
     fromisoformat_ymd := fun _ => Raise "Invalid isoformat string";
     stdout_write := fun _ => Return tt |}.

(** Nothing can be reached. *)
Definition offline : world := network [].



(** The releases page and the tags page are fetched and nothing is found
    in them. *)
Definition empty_pages : world :=
  network [(pangolin_releases, page (fun _ => []));
           (pangolin_tags, page (fun _ => []))].

(** A listing for the first primer pipeline that holds a file and the
    directories V1 and V2. *)
Definition page_V1_V2 : response :=
  page (fun q => match q with
                 | Tag "div" (Some ("class", ["Box-row"])) =>
                     [leaf "README.md" []; directory_row "V1"; directory_row "V2"]
                 | _ => []
                 end).

Definition listing_V1_V2 : world := network [(sarscov2_url, page_V1_V2)].

(** A page for the second primer pipeline that has no link to a directory,
    and rows found by their role. *)
Definition page_by_role : response :=
  page (fun q => match q with
                 | Tag "div" (Some ("role", ["row"])) =>
                     [directory_row ".."; directory_row "V1"; directory_row "V1"]
                 | _ => []
                 end).

Definition listing_by_role : world := network [(ncov2019_url, page_by_role)].

(** The same, with rows found by their class only. *)
Definition page_by_class : response :=
  page (fun q => match q with
                 | Tag "div" (Some ("class", ["Box-row"; "js-navigation-item"])) =>
                     [directory_row "nCoV-2019"; directory_row "V2"; directory_row "V2"]
                 | _ => []
                 end).

Definition listing_by_class : world := network [(ncov2019_url, page_by_class)].

(** A call preserves a part of the state when it leaves it as it was. *)
Definition preserves {A : Type} (part : io -> list string) (m : M A) : Prop :=
  forall st, part (snd (m st)) = part st.

(** What the HTML stage of the package pipeline may return. *)
Definition html_outcome (d : info) : Prop :=
  match d with
  | Release _ _ _ => True
  | Error msg =>
      msg = "Could not find Pangolin version information" \/
      msg = "Could not find version tag"
  | _ => False
  end.

(** The message of a failure after an exception of each stage. *)
Definition chained (e nested_e : string) : string :=
  "Failed to retrieve Pangolin version: " ++ e ++ ", then " ++ nested_e.



(** A name that starts as the version pattern asks: a digit, or the
    letter V in either case and then a digit. *)
Definition starts_like_version (s : string) : bool :=
  match s with
  | String c rest =>
      PyStr.is_decimal c
      || ((is_char "V" c || is_char "v" c)
          && match rest with
             | String d _ => PyStr.is_decimal d
             | EmptyString => false
             end)
  | EmptyString => false
  end.

(** The test of the link scan of the tags page. *)
Definition is_version_link (link : element) : bool :=
  PyStr.contains "/releases/tag/" (get_attr link "href")
  && PyStr.contains "v" (text link).

(** The API answers for both repositories with a release v4.3. *)
Definition release_answer : response :=
  {| raise_for_status := Return tt;
     json := Return (fun key =>
               match key with
               | "tag_name" => Return (Str "v4.3")
               | "published_at" => Return (Str "2023-10-30T12:00:00Z")
               | "html_url" => Return (Str "https://example.org/v4.3")
               | _ => Raise ("'" ++ key ++ "'")
               end);
     soup := leaf "" [] |}.

Definition api_answers : world :=
  {| requests_get := fun url =>
       if String.eqb url pangolin_api || String.eqb url artic_api
       then Return release_answer
       else Raise "Connection refused";
     strptime_ymd := fun v =>
       match v with
       | Str "2023-10-30T12:00:00Z" => Return "2023-10-30"
       | _ => Raise "time data does not match format"
       end;
     fromisoformat_ymd := fun _ => Raise "Invalid isoformat string";
     stdout_write := fun _ => Return tt |}.

(** A releases page with a release header that holds a version link and
    no date. *)
Definition page_header_with_tag : response :=
  page (fun q => match q with
                 | Css "div.release-header" =>
                     [Element "v1.2" []
                        (fun q' => match q' with
                                   | Css "a.Link--primary" => [leaf " v1.2 " []]
                                   | _ => []
                                   end)]
                 | _ => []
                 end).

Definition header_with_tag : world :=
  network [(pangolin_releases, page_header_with_tag)].

(** A listing for the first primer pipeline with directories of which
    some do not look like versions. *)
Definition page_mixed : response :=
  page (fun q => match q with
                 | Tag "div" (Some ("class", ["Box-row"])) =>
                     [directory_row "docs"; directory_row " V3 "; directory_row "V4.1"]
                 | _ => []
                 end).

Definition listing_mixed : world := network [(sarscov2_url, page_mixed)].

(** A tags page whose first row holds a tag link and a date. *)
Definition page_tag_row : response :=
  page (fun q => match q with
                 | Css "div.Box-row" =>
                     [Element "v4.3.1" []
                        (fun q' => match q' with
                                   | Css "relative-time" =>
                                       [leaf "yesterday" [("datetime", "2023-10-30T12:00:00Z")]]
                                   | Css _ => [leaf "v4.3.1" []]
                                   | _ => []
                                   end)]
                 | _ => []
                 end).

Definition tags_only : world :=
  {| requests_get := fun url =>
       if String.eqb url pangolin_releases then Return (page (fun _ => []))
       else if String.eqb url pangolin_tags then Return page_tag_row
       else Raise "Connection refused";
     strptime_ymd := fun _ => Raise "time data does not match format";
     fromisoformat_ymd := fun s =>
       if String.eqb s "2023-10-30T12:00:00+00:00" then Return "2023-10-30"
       else Raise "Invalid isoformat string";
     stdout_write := fun _ => Return tt |}.

(** The line of the report for one version of the second primer set. *)
Definition version_line (version : string) : string := "    - " ++ version.

(** The output takes the line. *)
Definition accepted (w : world) (line : string) : Prop :=
  stdout_write w line = Return tt.

(** The lines of the report for the result of a release lookup: the
    message of a failure, or the version, the date and the address. *)
Definition release_lines (d : info) : list string :=
  match d with
  | Error e => ["  " ++ e]
  | Release version published_date url =>
      ["  Latest version: " ++ str version;
       "  Published date: " ++ published_date;
       "  URL: " ++ str url]
  | _ => []
  end.

(** The lines of the report for the result of the second primer lookup:
    the message of a failure, or a title, a line for each version and the
    address. *)
Definition schemes_lines (d : info) : list string :=
  match d with
  | Error e => ["  " ++ e]
  | Versions all_versions url | Latest _ all_versions url =>
      ("  Available primer versions:"
         :: map version_line all_versions ++ [("  URL: " ++ url)%string])%list
  | Release _ _ url => ["  Available primer versions:"; "  URL: " ++ str url]
  end.

(** The whole report for the results of the three lookups of [main]. *)
Definition report (pangolin_info artic_info schemes_info : info) : list string :=
  ([rule "="; "CHECKING LATEST VERSIONS OF SARS-CoV-2 TOOLS"; rule "=";
    (nl ++ "1. Pangolin Repository")%string; rule "-"]
   ++ release_lines pangolin_info
   ++ [(nl ++ "2. ARTIC Field Bioinformatics")%string; rule "-"]
   ++ release_lines artic_info
   ++ [(nl ++ "3. ARTIC nCoV-2019 Primer Schemes")%string; rule "-"]
   ++ schemes_lines schemes_info
   ++ [(nl ++ rule "=")%string])%list.

(** What a call leaves when it returns after printing [lines]. *)
Definition said (lines : list string) : io :=
  {| requested := []; printed := lines |}.

(** A call that returns after printing [lines] and nothing else. *)
Definition prints {A : Type} (m : M A) (a : A) (lines : list string) : Prop :=
  forall st, m st = (Return a, extend st (said lines)).

(** A call that never requests the address [url]. *)
Definition never_asks {A : Type} (url : string) (m : M A) : Prop :=
  forall st, ~ In url (requested st) -> ~ In url (requested (snd (m st))).





(** A link of the page of the second primer set. *)
Definition directory_link (href name : string) : element :=
  leaf name [("href", href)].

(** A page for the second primer pipeline with links to directories, some
    repeated, some to the directory itself or to its parent, and one to
    another place. *)
Definition page_by_links : response :=
  page (fun q => match q with
                 | Tag "a" None =>
                     [directory_link "/artic-network/primer-schemes/tree/master/nCoV-2019/v1" "v1";
                      directory_link "/artic-network/primer-schemes/tree/master/nCoV-2019/.." "..";
                      directory_link "/artic-network/primer-schemes/tree/master/nCoV-2019/V3" " V3 ";
                      directory_link "/artic-network/primer-schemes/tree/master/nCoV-2019/V1" "V1";
                      directory_link "/artic-network/primer-schemes" "primer-schemes";
                      directory_link "/artic-network/primer-schemes/tree/master/nCoV-2019/v1" "v1";
                      directory_link "/artic-network/primer-schemes/tree/master/nCoV-2019/" "nCoV-2019";
                      directory_link "/artic-network/primer-schemes/tree/master/nCoV-2019/V3" "V3"]
                 | _ => []
                 end).

Definition listing_by_links : world := network [(ncov2019_url, page_by_links)].

(** * Properties *)

(** ** Strings *)

Lemma length_append (a b : string) :
  String.length (a ++ b) = String.length a + String.length b.
Proof. induction a as [|c a IH]; simpl; [reflexivity | now rewrite IH]. Qed.

Lemma take_append (a b : string) :
  PyStr.take (String.length (a ++ b) - String.length b) (a ++ b) = a.
Proof.
  rewrite length_append.
  replace (String.length a + String.length b - String.length b)
    with (String.length a) by lia.
  induction a as [|c a IH]; simpl.
  - now destruct b.
  - now rewrite IH.
Qed.

Lemma append_assoc (a b c : string) : (a ++ b) ++ c = a ++ (b ++ c).
Proof. induction a as [|x a IH]; simpl; [reflexivity | now rewrite IH]. Qed.

Lemma append_empty_r (a : string) : a ++ "" = a.
Proof. induction a as [|x a IH]; simpl; [reflexivity | now rewrite IH]. Qed.

Lemma all_chars_append p (a b : string) :
  PyStr.all_chars p (a ++ b) = PyStr.all_chars p a && PyStr.all_chars p b.
Proof.
  induction a as [|c a IH]; simpl; [reflexivity |].
  now rewrite IH, andb_assoc.
Qed.

(** ** The matcher *)

(** The equation of [run], one step unfolded. *)
Lemma run_eq {R : Type} n r s (k : string -> option R) :
  Re.run n r s k =
  match r with
  | Re.Eps => k s
  | Re.Chr p =>
      match s with
      | String c s' => if p c then k s' else None
      | EmptyString => None
      end
  | Re.Cat r1 r2 => Re.run n r1 s (fun s1 => Re.run n r2 s1 k)
  | Re.Alt r1 r2 =>
      match Re.run n r1 s k with
      | Some x => Some x
      | None => Re.run n r2 s k
      end
  | Re.Star r1 =>
      match n with
      | O => k s
      | S n' =>
          match Re.run n r1 s (fun s1 =>
                  if Nat.ltb (String.length s1) (String.length s)
                  then Re.run n' (Re.Star r1) s1 k else None) with
          | Some x => Some x
          | None => k s
          end
      end
  end.
Proof. destruct n, r; reflexivity. Qed.

(** Whatever the matcher returns went through the continuation, after a
    prefix that belongs to the language of the pattern. *)
Lemma run_sound {R : Type} n : forall r s (k : string -> option R) x,
  Re.run n r s k = Some x ->
  exists s1 s2, s = s1 ++ s2 /\ Re.lang r s1 /\ k s2 = Some x.
Proof.
  induction n as [|n IHn];
    (induction r as [|p|r1 IH1 r2 IH2|r1 IH1 r2 IH2|r1 IH1]; intros s k x H;
     rewrite run_eq in H).
  all: try (exists "", s; repeat split; [constructor | exact H]).
  all: try (destruct s as [|c s']; [discriminate |];
            destruct (p c) eqn:Hp; [| discriminate];
            exists (String c ""), s'; repeat split; [now constructor | exact H]).
  all: try (apply IH1 in H; destruct H as (a & b & -> & La & H);
            apply IH2 in H; destruct H as (a' & b' & -> & La' & H);
            exists (a ++ a'), b'; repeat split;
            [now rewrite append_assoc | now constructor | exact H]).
  all: try (destruct (Re.run _ r1 s k) eqn:H1;
            [ injection H as <-; apply IH1 in H1;
              destruct H1 as (a & b & -> & La & H1);
              exists a, b; repeat split; [now apply Re.lang_alt_l | exact H1]
            | apply IH2 in H; destruct H as (a & b & -> & La & H);
              exists a, b; repeat split; [now apply Re.lang_alt_r | exact H] ]).
  match type of H with
  | match ?m with _ => _ end = _ => destruct m eqn:H1
  end.
  - injection H as <-. apply IH1 in H1.
    destruct H1 as (a & b & -> & La & H1).
    destruct (Nat.ltb _ _); [| discriminate].
    apply IHn in H1. destruct H1 as (a' & b' & -> & La' & H1).
    exists (a ++ a'), b'; repeat split;
      [now rewrite append_assoc | now constructor | exact H1].
  - exists "", s; repeat split; [constructor | exact H].
Qed.

(** The bound on the iterations of a star is never reached when it exceeds
    the length of the string. *)
Lemma run_fuel {R : Type} n : forall m r s (k k' : string -> option R),
  String.length s < n -> String.length s < m ->
  (forall s', String.length s' <= String.length s -> k s' = k' s') ->
  Re.run n r s k = Re.run m r s k'.
Proof.
  induction n as [|n IHn]; [intros; lia |].
  intros m r; revert m.
  induction r as [|p|r1 IH1 r2 IH2|r1 IH1 r2 IH2|r1 IH1]; intros m s k k' Hn Hm Hk;
    rewrite (run_eq (S n)), (run_eq m).
  - now apply Hk.
  - destruct s as [|c s']; [reflexivity |].
    destruct (p c); [| reflexivity]. apply Hk. simpl. lia.
  - apply IH1; try assumption.
    intros s' Hs'. apply IH2; try lia.
    intros s'' Hs''. apply Hk. lia.
  - rewrite (IH1 m s k k' Hn Hm Hk), (IH2 m s k k' Hn Hm Hk). reflexivity.
  - destruct m as [|m]; [lia |].
    rewrite (IH1 (S m) s _
               (fun s1 => if Nat.ltb (String.length s1) (String.length s)
                          then Re.run m (Re.Star r1) s1 k' else None) Hn Hm).
    + rewrite (Hk s (le_n _)). reflexivity.
    + intros s' Hs'. destruct (Nat.ltb_spec (String.length s') (String.length s));
        [| reflexivity].
      apply IHn; try lia. intros s'' Hs''. apply Hk. lia.
Qed.

(** A match is a prefix of the subject that belongs to the language. *)
Lemma match_prefix_sound r s rest :
  Re.match_prefix r s = Some rest ->
  exists m, s = m ++ rest /\ Re.lang r m /\ Re.matched s rest = m.
Proof.
  unfold Re.match_prefix. intros H.
  apply run_sound in H. destruct H as (a & b & -> & La & [= ->]).
  exists a. repeat split; [assumption |]. apply take_append.
Qed.

(** Every item of [findall] belongs to the language of the pattern. *)
Lemma findall_from_lang r s : forall skip,
  Forall (Re.lang r) (Re.findall_from r skip s).
Proof.
  induction s as [|c s IH]; intros skip; simpl.
  - destruct skip; [| constructor].
    destruct (Re.match_prefix r "") eqn:H; [| constructor].
    apply match_prefix_sound in H. destruct H as (m & E & L & _).
    destruct m; [| discriminate]. repeat constructor. exact L.
  - destruct skip; [| apply IH].
    destruct (Re.match_prefix r (String c s)) eqn:H; [| apply IH].
    apply match_prefix_sound in H. destruct H as (m & E & L & ->).
    constructor; [exact L | apply IH].
Qed.

(** ** The number tokens of a label *)

Lemma lang_star_digit s : Re.lang (Re.Star digit) s -> PyStr.all_chars PyStr.is_decimal s = true.
Proof.
  intros H. remember (Re.Star digit) as r eqn:E.
  induction H; try discriminate; [reflexivity |].
  injection E as ->. rewrite all_chars_append, IHlang2 by reflexivity.
  inversion H as [|? c Hc| | | | |]; subst. simpl. now rewrite Hc.
Qed.

Lemma lang_plus_digit s : Re.lang (Re.Plus digit) s -> digits s.
Proof.
  intros H. inversion H as [| |? ? a b Ha Hb| | | |]; subst.
  inversion Ha as [|? c Hc| | | | |]; subst. apply lang_star_digit in Hb.
  split; [simpl; now rewrite Hc, Hb | discriminate].
Qed.

(** The language of the number pattern: digits, or digits, a dot, digits. *)
Lemma lang_number t :
  Re.lang number_re t ->
  digits t \/ exists a b, t = a ++ String "." b /\ digits a /\ digits b.
Proof.
  intros H. inversion H as [| | |? ? ? H1|? ? ? H1| |]; subst.
  - right. inversion H1 as [| |? ? a b' Ha Hb| | | |]; subst.
    inversion Hb as [| |? ? d b Hd Hb'| | | |]; subst.
    inversion Hd as [|? c Hc| | | | |]; subst.
    unfold is_char in Hc. apply Ascii.eqb_eq in Hc. subst.
    exists a, b. repeat split; try reflexivity; now apply lang_plus_digit.
  - left. now apply lang_plus_digit.
Qed.

Lemma decimal_isdigit c : PyStr.is_decimal c = true -> PyStr.isdigit_char c = true.
Proof. unfold PyStr.isdigit_char. now intros ->. Qed.

Lemma decimal_not_dot c : PyStr.is_decimal c = true -> Ascii.eqb c "." = false.
Proof.
  intros H. destruct (Ascii.eqb_spec c "."); [subst; discriminate | reflexivity].
Qed.

Lemma all_decimal_isdigit s :
  PyStr.all_chars PyStr.is_decimal s = true -> PyStr.all_chars PyStr.isdigit_char s = true.
Proof.
  induction s as [|c s IH]; simpl; [reflexivity |].
  intros H. apply andb_true_iff in H. destruct H as [Hc Hs].
  now rewrite (decimal_isdigit _ Hc), IH.
Qed.

Lemma isdigit_digits s : digits s -> PyStr.isdigit s = true.
Proof.
  intros [H Hne]. destruct s; [congruence |].
  unfold PyStr.isdigit. now apply all_decimal_isdigit.
Qed.

Lemma remove_first_digits a :
  PyStr.all_chars PyStr.is_decimal a = true -> PyStr.remove_first "." a = a.
Proof.
  induction a as [|c a IH]; simpl; [reflexivity |].
  intros H. apply andb_true_iff in H. destruct H as [Hc Ha].
  now rewrite (decimal_not_dot _ Hc), IH.
Qed.

Lemma remove_first_dotted a b :
  PyStr.all_chars PyStr.is_decimal a = true ->
  PyStr.remove_first "." (a ++ String "." b) = a ++ b.
Proof.
  induction a as [|c a IH]; simpl; [reflexivity |].
  intros H. apply andb_true_iff in H. destruct H as [Hc Ha].
  now rewrite (decimal_not_dot _ Hc), IH.
Qed.

Lemma split_dot_digits a :
  PyStr.all_chars PyStr.is_decimal a = true -> PyFloat.split_dot a = (a, "").
Proof.
  induction a as [|c a IH]; simpl; [reflexivity |].
  intros H. apply andb_true_iff in H. destruct H as [Hc Ha].
  now rewrite (decimal_not_dot _ Hc), IH.
Qed.

Lemma split_dot_dotted a b :
  PyStr.all_chars PyStr.is_decimal a = true ->
  PyFloat.split_dot (a ++ String "." b) = (a, b).
Proof.
  induction a as [|c a IH]; simpl; [reflexivity |].
  intros H. apply andb_true_iff in H. destruct H as [Hc Ha].
  now rewrite (decimal_not_dot _ Hc), IH.
Qed.

Lemma digits_append a b : digits a -> digits b -> digits (a ++ b).
Proof.
  intros [Ha Hne] [Hb _]. split.
  - now rewrite all_chars_append, Ha, Hb.
  - destruct a; [congruence | discriminate].
Qed.

Lemma eqb_nonempty s : s <> "" -> String.eqb s "" = false.
Proof. intros H. now apply String.eqb_neq. Qed.

(** What the key makes of a token of the number pattern: the guard holds
    and [float] returns. *)
Lemma key_component_number t :
  Re.lang number_re t ->
  PyStr.isdigit (PyStr.remove_first "." t) = true /\
  exists f, py_float t = Return f /\ key_component t = Return (Float f).
Proof.
  intros H. apply lang_number in H.
  assert (G : PyStr.isdigit (PyStr.remove_first "." t) = true /\
              exists f, py_float t = Return f).
  { destruct H as [[Ht Hne] | (a & b & -> & [Ha Hane] & [Hb Hbne])].
    - rewrite remove_first_digits by assumption.
      split; [now apply isdigit_digits |].
      unfold py_float. rewrite split_dot_digits by assumption.
      rewrite append_empty_r, Ht, (eqb_nonempty _ Hne). simpl. eauto.
    - rewrite remove_first_dotted by assumption.
      split; [now apply isdigit_digits, digits_append |].
      unfold py_float. rewrite split_dot_dotted by assumption.
      rewrite Ha, Hb, eqb_nonempty; [simpl; eauto |].
      now apply digits_append. }
  destruct G as [G (f & Hf)]. split; [exact G |].
  exists f. split; [exact Hf |]. unfold key_component. now rewrite G, Hf.
Qed.

Lemma key_components_floats tokens :
  Forall (Re.lang number_re) tokens ->
  exists fs, key_components tokens = Return (map Float fs).
Proof.
  induction 1 as [|t tokens Ht _ IH]; simpl.
  - now exists [].
  - destruct (key_component_number t Ht) as (_ & f & _ & ->).
    destruct IH as (fs & ->). now exists (f :: fs).
Qed.

(** The key of a label is always computed, and is a list of floats. *)
Lemma sort_key_floats x : exists fs, sort_key x = Return (map Float fs).
Proof. apply key_components_floats, findall_from_lang. Qed.

(** ** The order of the keys *)

Ltac num_cases :=
  unfold num_ltb, num_eqb in *;
  repeat match goal with
         | |- context [num_val ?x] => destruct (num_val x)
         | H : context [num_val ?x] |- _ => destruct (num_val x)
         end;
  repeat match goal with
         | |- context [(?a =? ?b)%Z] => destruct (Z.eqb_spec a b)
         | H : context [(?a =? ?b)%Z] |- _ => destruct (Z.eqb_spec a b)
         | |- context [(?a <? ?b)%Z] => destruct (Z.ltb_spec a b)
         | H : context [(?a <? ?b)%Z] |- _ => destruct (Z.ltb_spec a b)
         end;
  try discriminate; try lia; try reflexivity.

Lemma key_ltb_irrefl a : key_ltb a a = false.
Proof.
  induction a as [|x a IH]; simpl; [reflexivity |].
  rewrite IH. num_cases.
Qed.

Lemma key_ltb_trans a : forall b c,
  key_ltb a b = true -> key_ltb b c = true -> key_ltb a c = true.
Proof.
  induction a as [|x a IH]; intros [|y b] [|z c]; simpl; try congruence.
  intros H1 H2.
  destruct (num_eqb x y) eqn:Exy, (num_eqb y z) eqn:Eyz, (num_eqb x z) eqn:Exz;
    try (now apply (IH b c)); num_cases.
Qed.

(** [a <= b] read as [not (b < a)] is transitive. *)
Lemma key_leb_trans a : forall b c,
  key_ltb b a = false -> key_ltb c b = false -> key_ltb c a = false.
Proof.
  induction a as [|x a IH]; intros [|y b] [|z c]; simpl; try congruence.
  intros H1 H2.
  destruct (num_eqb y x) eqn:Eyx, (num_eqb z y) eqn:Ezy, (num_eqb z x) eqn:Ezx;
    try (now apply (IH b c)); num_cases.
Qed.

Lemma key_ltb_asym a b : key_ltb a b = true -> key_ltb b a = false.
Proof.
  intros H. destruct (key_ltb b a) eqn:E; [| reflexivity].
  rewrite <- (key_ltb_irrefl a). symmetry. now apply (key_ltb_trans a b a).
Qed.

(** The empty key is below every other key. *)
Lemma key_ltb_nil_r a : key_ltb a [] = false.
Proof. now destruct a. Qed.

(** ** Sorting *)

Section SortFacts.
Context {A K : Type}.
Variable ltb : K -> K -> bool.
Hypothesis ltb_asym : forall a b, ltb a b = true -> ltb b a = false.
Hypothesis leb_trans : forall a b c,
  ltb b a = false -> ltb c b = false -> ltb c a = false.

Abbreviation ascending := (ascending ltb).

Lemma insert_perm (x : K * A) l : Permutation (x :: l) (insert ltb x l).
Proof.
  induction l as [|y l IH]; simpl; [reflexivity |].
  destruct (ltb (fst y) (fst x)); [| reflexivity].
  rewrite perm_swap. now constructor.
Qed.

Lemma stable_sort_perm (l : list (K * A)) : Permutation l (stable_sort ltb l).
Proof.
  induction l as [|x l IH]; simpl; [reflexivity |].
  rewrite <- insert_perm. now constructor.
Qed.

Lemma insert_sorted (x : K * A) l :
  StronglySorted ascending l -> StronglySorted ascending (insert ltb x l).
Proof.
  induction 1 as [|y l Hl IH Hy]; simpl.
  - repeat constructor.
  - destruct (ltb (fst y) (fst x)) eqn:E.
    + constructor; [exact IH |].
      rewrite <- insert_perm. constructor; [| exact Hy].
      now apply ltb_asym.
    + constructor; [now constructor |].
      constructor; [exact E |].
      rewrite Forall_forall in *. intros z Hz.
      apply (leb_trans _ (fst y)); [exact E | now apply Hy].
Qed.

Lemma stable_sort_sorted (l : list (K * A)) : StronglySorted ascending (stable_sort ltb l).
Proof.
  induction l as [|x l IH]; simpl; [constructor | now apply insert_sorted].
Qed.

(** Items none of which is below another keep their order. *)
Lemma insert_filter (P : K * A -> bool) x l :
  (forall a b, P a = true -> P b = true -> ltb (fst a) (fst b) = false) ->
  filter P (insert ltb x l) = filter P (x :: l).
Proof.
  intros HP. induction l as [|y l IH]; [reflexivity |].
  simpl insert. destruct (ltb (fst y) (fst x)) eqn:E; [| reflexivity].
  simpl in *. rewrite IH.
  destruct (P x) eqn:Px, (P y) eqn:Py; try reflexivity.
  now rewrite (HP y x Py Px) in E.
Qed.

Lemma stable_sort_filter (P : K * A -> bool) l :
  (forall a b, P a = true -> P b = true -> ltb (fst a) (fst b) = false) ->
  filter P (stable_sort ltb l) = filter P l.
Proof.
  intros HP. induction l as [|x l IH]; [reflexivity |].
  simpl stable_sort. rewrite insert_filter by assumption.
  simpl. now rewrite IH.
Qed.

Lemma sorted_rev (R : K * A -> K * A -> Prop) l :
  StronglySorted R l -> StronglySorted (fun x y => R y x) (rev l).
Proof.
  induction 1 as [|x l Hl IH Hx]; simpl; [constructor |].
  assert (G : forall l', StronglySorted (fun x y => R y x) l' ->
                         Forall (fun y => R x y) l' ->
                         StronglySorted (fun x y => R y x) (l' ++ [x])%list).
  { induction 1 as [|z l' Hl' IH' Hz]; intros F; simpl.
    - repeat constructor.
    - inversion F; subst. constructor; [now apply IH' |].
      apply Forall_app. split; [exact Hz | now repeat constructor]. }
  apply G; [exact IH |]. now apply Forall_rev.
Qed.

Lemma decorate_snd (key : A -> outcome K) l d :
  decorate key l = Return d -> map snd d = l.
Proof.
  revert d. induction l as [|x l IH]; simpl; intros d H.
  - now injection H as <-.
  - destruct (key x); [| discriminate].
    destruct (decorate key l); [| discriminate].
    injection H as <-. simpl. now rewrite (IH _ eq_refl).
Qed.

Lemma decorate_key (key : A -> outcome K) l d :
  decorate key l = Return d ->
  Forall (fun p => key (snd p) = Return (fst p)) d.
Proof.
  revert d. induction l as [|x l IH]; simpl; intros d H.
  - injection H as <-. constructor.
  - destruct (key x) eqn:E; [| discriminate].
    destruct (decorate key l); [| discriminate].
    injection H as <-. constructor; [exact E | now apply IH].
Qed.

Lemma decorate_total (key : A -> outcome K) (f : A -> K) l :
  (forall x, key x = Return (f x)) ->
  decorate key l = Return (map (fun x => (f x, x)) l).
Proof.
  intros H. induction l as [|x l IH]; simpl; [reflexivity |].
  now rewrite H, IH.
Qed.
End SortFacts.

(** ** The sort of the labels *)

Lemma sort_key_key_of x : sort_key x = Return (key_of x).
Proof.
  unfold key_of. destruct (sort_key_floats x) as (fs & ->). reflexivity.
Qed.

Lemma sort_versions_eq labels :
  sort_versions labels =
  Return (map snd (rev (stable_sort key_ltb (rev (decorated labels))))).
Proof.
  unfold sort_versions, list_sort.
  now rewrite (decorate_total sort_key key_of labels sort_key_key_of).
Qed.

Lemma decorated_snd labels : map snd (decorated labels) = labels.
Proof.
  unfold decorated. rewrite map_map. simpl. apply map_id.
Qed.

Lemma decorated_keyed labels : Forall keyed (decorated labels).
Proof.
  unfold decorated. rewrite Forall_map. apply Forall_forall. reflexivity.
Qed.

Lemma sorted_keyed labels :
  Forall keyed (rev (stable_sort key_ltb (rev (decorated labels)))).
Proof.
  apply Forall_rev.
  eapply Permutation_Forall; [apply stable_sort_perm |].
  apply Forall_rev, decorated_keyed.
Qed.

Lemma sorted_map_snd l :
  Forall keyed l ->
  StronglySorted (fun x y => ascending key_ltb y x) l ->
  StronglySorted not_below (map snd l).
Proof.
  intros F H. induction H as [|p l Hl IH Hp]; simpl; [constructor |].
  inversion F as [|? ? Kp Kl]; subst.
  constructor; [now apply IH |].
  rewrite Forall_map. rewrite Forall_forall in *.
  intros q Hq. unfold not_below. rewrite <- Kp, <- (Kl q Hq). now apply Hp.
Qed.

Lemma filter_map_snd k l :
  Forall keyed l ->
  filter (key_equiv k) (map snd l) =
  map snd (filter (fun p => negb (key_ltb k (fst p)) && negb (key_ltb (fst p) k)) l).
Proof.
  induction 1 as [|p l Kp _ IH]; simpl; [reflexivity |].
  unfold key_equiv at 1. rewrite <- Kp, IH.
  now destruct (negb (key_ltb k (fst p)) && negb (key_ltb (fst p) k)).
Qed.

(** What [versions.sort(key=..., reverse=True)] does to every list: it
    returns, the result has the items of the list, no item stands before
    one with a greater key, and items with equivalent keys keep their
    order. *)
Lemma sort_versions_spec labels :
  exists sorted,
    sort_versions labels = Return sorted /\
    Permutation labels sorted /\
    StronglySorted not_below sorted /\
    forall k, filter (key_equiv k) sorted = filter (key_equiv k) labels.
Proof.
  eexists. split; [apply sort_versions_eq |]. split; [| split].
  - rewrite <- (decorated_snd labels) at 1. apply Permutation_map.
    rewrite <- Permutation_rev.
    rewrite <- stable_sort_perm. apply Permutation_rev.
  - apply sorted_map_snd; [apply sorted_keyed |].
    apply sorted_rev, stable_sort_sorted.
    + apply key_ltb_asym.
    + apply key_leb_trans.
  - intros k. rewrite (filter_map_snd k _ (sorted_keyed labels)).
    rewrite filter_rev, stable_sort_filter, filter_rev, rev_involutive.
    + rewrite <- (filter_map_snd k _ (decorated_keyed labels)).
      now rewrite decorated_snd.
    + intros a b Ha Hb.
      apply andb_true_iff in Ha, Hb. destruct Ha as [_ Ha], Hb as [Hb _].
      apply negb_true_iff in Ha, Hb.
      now apply (key_leb_trans _ k).
Qed.

(** ** Labels without digits *)

Lemma digits_head s : digits s -> exists c s', s = String c s' /\ PyStr.is_decimal c = true.
Proof.
  intros [H Hne]. destruct s as [|c s']; [congruence |].
  simpl in H. apply andb_true_iff in H. exists c, s'. now split.
Qed.

(** A match of the number pattern starts with a digit. *)
Lemma number_match_head s rest :
  Re.match_prefix number_re s = Some rest ->
  exists c s', s = String c s' /\ PyStr.is_decimal c = true.
Proof.
  intros H. apply match_prefix_sound in H. destruct H as (m & -> & L & _).
  apply lang_number in L.
  destruct L as [D | (a & b & -> & D & _)];
    apply digits_head in D; destruct D as (c & s' & -> & Hc); simpl; eauto.
Qed.

(** The number pattern matches wherever a digit stands. *)
Lemma number_match_digit c s :
  PyStr.is_decimal c = true ->
  exists rest, Re.match_prefix number_re (String c s) = Some rest.
Proof.
  intros Hc. unfold Re.match_prefix, number_re.
  rewrite run_eq.
  match goal with |- exists _, match ?m with _ => _ end = _ => destruct m end;
    [eauto |].
  unfold Re.Plus. rewrite run_eq. unfold digit at 1. rewrite run_eq, Hc.
  rewrite run_eq.
  match goal with |- exists _, match ?m with _ => _ end = _ => destruct m end;
    eauto.
Qed.

Lemma findall_no_digits s : forall skip,
  PyStr.any_char PyStr.is_decimal s = false -> Re.findall_from number_re skip s = [].
Proof.
  induction s as [|c s IH]; intros skip H; simpl.
  - destruct skip; [| reflexivity].
    destruct (Re.match_prefix number_re "") eqn:E; [| reflexivity].
    apply number_match_head in E. destruct E as (? & ? & ? & _). discriminate.
  - simpl in H. apply orb_false_iff in H. destruct H as [Hc Hs].
    destruct skip; [| now apply IH].
    destruct (Re.match_prefix number_re (String c s)) eqn:E; [| now apply IH].
    apply number_match_head in E. destruct E as (c' & s' & [= <- <-] & Hc').
    congruence.
Qed.

Lemma findall_some_digit s :
  PyStr.any_char PyStr.is_decimal s = true -> Re.findall_from number_re 0 s <> [].
Proof.
  induction s as [|c s IH]; simpl; [discriminate |].
  intros H. destruct (Re.match_prefix number_re (String c s)) eqn:E; [discriminate |].
  destruct (PyStr.is_decimal c) eqn:Hc.
  - destruct (number_match_digit c s Hc) as (rest & E'). congruence.
  - now apply IH.
Qed.

Lemma key_components_length tokens : forall k,
  key_components tokens = Return k -> List.length k = List.length tokens.
Proof.
  induction tokens as [|t tokens IH]; simpl; intros k H.
  - now injection H as <-.
  - destruct (key_component t); [| discriminate].
    destruct (key_components tokens); [| discriminate].
    injection H as <-. simpl. now rewrite (IH _ eq_refl).
Qed.

(** The key is empty exactly for the labels without digits. *)
Lemma key_of_nil x : key_of x = [] <-> no_digits x = true.
Proof.
  pose proof (sort_key_key_of x) as H. unfold sort_key in H.
  apply key_components_length in H. unfold Re.findall in H.
  unfold no_digits. split.
  - intros E. rewrite E in H. simpl in H.
    destruct (PyStr.any_char PyStr.is_decimal x) eqn:D; [| reflexivity].
    apply findall_some_digit in D.
    destruct (Re.findall_from number_re 0 x); [congruence | discriminate].
  - intros D. apply negb_true_iff in D.
    rewrite (findall_no_digits x 0 D) in H.
    destruct (key_of x); [reflexivity | discriminate].
Qed.

Lemma key_equiv_nil x : key_equiv [] x = no_digits x.
Proof.
  unfold key_equiv. rewrite key_ltb_nil_r, andb_true_r.
  destruct (no_digits x) eqn:D.
  - apply key_of_nil in D. now rewrite D.
  - destruct (key_of x) eqn:E; [| reflexivity].
    apply key_of_nil in E. congruence.
Qed.

(** In descending order the labels with the empty key come last. *)
Lemma sorted_split l :
  StronglySorted not_below l ->
  l = (filter (fun x => negb (no_digits x)) l ++ filter no_digits l)%list.
Proof.
  induction 1 as [|x l Hl IH Hx]; simpl; [reflexivity |].
  destruct (no_digits x) eqn:D; simpl.
  - assert (F : Forall (fun y => no_digits y = true) l).
    { rewrite Forall_forall in *. intros y Hy. apply key_of_nil.
      specialize (Hx y Hy). unfold not_below in Hx.
      apply key_of_nil in D. rewrite D in Hx.
      now destruct (key_of y). }
    clear IH Hx Hl.
    assert (G : filter (fun y => negb (no_digits y)) l = [] /\ filter no_digits l = l).
    { induction F as [|y l Hy _ [IH1 IH2]]; simpl; [now split |].
      now rewrite Hy, IH1, IH2. }
    destruct G as [-> ->]. reflexivity.
  - now rewrite <- IH.
Qed.

(** ** The claims about the order of the labels *)

(** C2, as the code has it: a digit group with a fraction is ONE component.
    The key of "V5.3" is the single float 5.3 (5967269506265907 * 2^-50),
    the key of "5" is [5.0], and the key of every label is the list of its
    number tokens, in order, each converted by [float]: the matches of
    digits-dot-digits or else digits. *)
Theorem sort_key_number_tokens :
  sort_key "V5.3" = Return [Float (PyFloat.Finite (5967269506265907 * 2 ^ 1024))] /\
  sort_key "5" = Return [Float (PyFloat.whole 5)] /\
  forall label, exists fs,
    map py_float (Re.findall number_re label) = map Return fs /\
    sort_key label = Return (map Float fs) /\
    Forall (fun n => digits n \/
                     exists a b, n = a ++ String "." b /\ digits a /\ digits b)
           (Re.findall number_re label).
Proof.
  split; [vm_compute; reflexivity |]. split; [vm_compute; reflexivity |].
  intros label. unfold sort_key.
  pose proof (findall_from_lang number_re label 0) as L.
  fold (Re.findall number_re label) in L.
  induction L as [|n tokens Hn _ (fs & IH1 & IH2 & IH3)]; simpl.
  - exists []. repeat split; constructor.
  - destruct (key_component_number n Hn) as (_ & f & Hf & Hk).
    exists (f :: fs). simpl. rewrite Hf, IH1, Hk, IH2.
    repeat split. constructor; [now apply lang_number | exact IH3].
Qed.

(** C2 as stated fails: the key of "V5.3" is not [5.0, 3.0]. *)
Lemma sort_key_V5_3_not_two_components :
  sort_key "V5.3" <> Return [Float (PyFloat.whole 5); Float (PyFloat.whole 3)].
Proof. vm_compute. discriminate. Qed.

(** C3, as the code has it: the key of a label without digits is the empty
    list, and the sort puts those labels after all labels that have a digit,
    in the order they had. *)
Theorem no_digits_empty_key_sorts_last :
  (forall label, no_digits label = true <-> sort_key label = Return []) /\
  forall labels, exists front,
    sort_versions labels = Return (front ++ filter no_digits labels)%list /\
    Forall (fun x => no_digits x = false) front.
Proof.
  split.
  - intros label. rewrite <- key_of_nil, sort_key_key_of.
    split; [now intros -> | now intros [= ->]].
  - intros labels.
    destruct (sort_versions_spec labels) as (sorted & E & _ & S & St).
    exists (filter (fun x => negb (no_digits x)) sorted). split.
    + rewrite E. f_equal. rewrite (sorted_split sorted S) at 1. f_equal.
      rewrite <- (filter_ext _ _ key_equiv_nil sorted).
      rewrite <- (filter_ext _ _ key_equiv_nil labels). apply St.
    + apply Forall_forall. intros x Hx. apply filter_In in Hx.
      now apply negb_true_iff.
Qed.

(** C3 as stated fails: the key of "latest" is not [0.0]. *)
Lemma sort_key_latest_not_zero :
  sort_key "latest" <> Return [Float (PyFloat.whole 0)].
Proof. vm_compute. discriminate. Qed.

(** C6: the sort of the labels returns for every list, its result has the
    items of the list, no label stands before one with a greater key,
    labels with equivalent keys keep the order they had, and
    ["V1", "V5.3", "V2"] becomes ["V5.3", "V2", "V1"]. *)
Theorem sort_versions_stable_descending :
  (forall labels, exists sorted,
     sort_versions labels = Return sorted /\
     Permutation labels sorted /\
     StronglySorted not_below sorted /\
     forall k, filter (key_equiv k) sorted = filter (key_equiv k) labels) /\
  sort_versions ["V1"; "V5.3"; "V2"] = Return ["V5.3"; "V2"; "V1"].
Proof.
  split; [exact sort_versions_spec | vm_compute; reflexivity].
Qed.

(** C9: every match of the number pattern passes the guard and is
    converted by [float], so that no component is the int of the [else]
    branch; the sort of the labels never raises, and the handler that
    keeps the unsorted list is never used. *)
Theorem sort_key_guard_always_holds :
  (forall label,
     Forall (fun n => PyStr.isdigit (PyStr.remove_first "." n) = true /\
                      exists f, py_float n = Return f /\
                                key_component n = Return (Float f))
            (Re.findall number_re label)) /\
  (forall versions, exists sorted,
     sort_versions versions = Return sorted /\
     sorted_or_unchanged versions = sorted).
Proof.
  split.
  - intros label. eapply Forall_impl; [| apply findall_from_lang].
    intros n Hn. now apply key_component_number.
  - intros versions.
    destruct (sort_versions_spec versions) as (sorted & E & _).
    exists sorted. split; [exact E |].
    unfold sorted_or_unchanged. now rewrite E.
Qed.

(** ** Calls with effects *)

Lemma extend_start_l st : extend start st = st.
Proof. now destruct st. Qed.

Lemma extend_start_r st : extend st start = st.
Proof. destruct st. unfold extend. simpl. now rewrite !app_nil_r. Qed.

Lemma extend_assoc a b c : extend (extend a b) c = extend a (extend b c).
Proof. unfold extend. simpl. now rewrite !app_assoc. Qed.

Lemma uniform_ret {A : Type} (a : A) : uniform (ret a).
Proof. intros st. unfold ret. simpl. now rewrite extend_start_r. Qed.

Lemma uniform_lift {A : Type} (o : outcome A) : uniform (lift o).
Proof. intros st. unfold lift. simpl. now rewrite extend_start_r. Qed.

Lemma uniform_print w line : uniform (print w line).
Proof.
  intros st. unfold print, extend.
  destruct (stdout_write w line); simpl; rewrite !app_nil_r;
    [reflexivity | now destruct st].
Qed.

Lemma uniform_http_get w url : uniform (http_get w url).
Proof. intros st. unfold http_get, extend. simpl. now rewrite app_nil_r. Qed.

Lemma uniform_bind {A B : Type} (m : M A) (f : A -> M B) :
  uniform m -> (forall a, uniform (f a)) -> uniform (bind m f).
Proof.
  intros Hm Hf st. unfold bind. rewrite (Hm st).
  destruct (m start) as [[a | e] st1]; simpl.
  - rewrite (Hf a (extend st st1)), (Hf a st1). simpl.
    now rewrite extend_assoc.
  - reflexivity.
Qed.

Lemma uniform_try_except {A : Type} (m : M A) (h : string -> M A) :
  uniform m -> (forall e, uniform (h e)) -> uniform (try_except m h).
Proof.
  intros Hm Hh st. unfold try_except. rewrite (Hm st).
  destruct (m start) as [[a | e] st1]; simpl.
  - reflexivity.
  - rewrite (Hh e (extend st st1)), (Hh e st1). simpl.
    now rewrite extend_assoc.
Qed.

Create HintDb uniform.

#[local] Hint Resolve uniform_ret uniform_lift uniform_print uniform_http_get : uniform.

Ltac uniform_step :=
  first
    [ solve [auto 1 with uniform nocore]
    | apply uniform_bind; [| intros ?]
    | apply uniform_try_except; [| intros ?]
    | match goal with
      | |- uniform (match ?x with _ => _ end) => destruct x
      end
    | progress cbv zeta ].

Ltac uniform_tac := repeat uniform_step.

Lemma uniform_published_of w e : uniform (published_of w e).
Proof. unfold published_of. uniform_tac. Qed.

Lemma uniform_link_scan soup : uniform (link_scan soup).
Proof. unfold link_scan. uniform_tac. Qed.

#[local] Hint Resolve uniform_published_of uniform_link_scan : uniform.

Lemma uniform_tags_page w : uniform (tags_page w).
Proof. unfold tags_page. uniform_tac. Qed.

#[local] Hint Resolve uniform_tags_page : uniform.

Lemma uniform_releases_page w : uniform (releases_page w).
Proof. unfold releases_page. uniform_tac. Qed.

Lemma uniform_pangolin_latest_release w : uniform (pangolin_latest_release w).
Proof. unfold pangolin_latest_release. uniform_tac. Qed.

#[local] Hint Resolve uniform_releases_page uniform_pangolin_latest_release : uniform.

Lemma uniform_check_pangolin_version w : uniform (check_pangolin_version w).
Proof. unfold check_pangolin_version. uniform_tac. Qed.

Lemma uniform_check_artic_version w : uniform (check_artic_version w).
Proof. unfold check_artic_version. uniform_tac. Qed.

Lemma uniform_check_artic_sarscov2_primers w : uniform (check_artic_sarscov2_primers w).
Proof. unfold check_artic_sarscov2_primers. uniform_tac. Qed.

Lemma uniform_check_artic_ncov2019_primers w : uniform (check_artic_ncov2019_primers w).
Proof. unfold check_artic_ncov2019_primers. uniform_tac. Qed.

Lemma uniform_print_release w d : uniform (print_release w d).
Proof. unfold print_release. uniform_tac. Qed.

Lemma uniform_print_versions w l : uniform (print_versions w l).
Proof. induction l; simpl; uniform_tac. Qed.

#[local] Hint Resolve uniform_print_versions : uniform.

Lemma uniform_print_schemes w d : uniform (print_schemes w d).
Proof. unfold print_schemes. uniform_tac. Qed.

#[local] Hint Resolve uniform_check_pangolin_version uniform_check_artic_version
  uniform_check_artic_sarscov2_primers uniform_check_artic_ncov2019_primers
  uniform_print_release uniform_print_schemes : uniform.

(** ** Every pipeline returns *)

Lemma uniform_run {A : Type} (m : M A) st :
  uniform m -> m st = (result m, extend st (snd (m start))).
Proof. intros H. apply H. Qed.

Lemma bind_run {A B : Type} (m : M A) (f : A -> M B) a st :
  uniform m -> result m = Return a ->
  bind m f st = f a (extend st (snd (m start))).
Proof.
  intros Hm Hr. unfold bind. rewrite (uniform_run m st Hm), Hr. reflexivity.
Qed.

Lemma bind_inv {A B : Type} (m : M A) (f : A -> M B) st b st' :
  bind m f st = (Return b, st') ->
  exists a st1, m st = (Return a, st1) /\ f a st1 = (Return b, st').
Proof.
  unfold bind. destruct (m st) as [[a | e] st1]; [eauto | discriminate].
Qed.

Lemma try_except_returns {A : Type} (P : A -> Prop) (m : M A) h :
  (forall a st st', m st = (Return a, st') -> P a) ->
  (forall e st, exists a st', h e st = (Return a, st') /\ P a) ->
  forall st, exists a st', try_except m h st = (Return a, st') /\ P a.
Proof.
  intros Hm Hh st. unfold try_except.
  destruct (m st) as [[a | e] st1] eqn:E; [| apply Hh].
  exists a, st1. split; [reflexivity | now apply (Hm a st st1)].
Qed.

Ltac bind_inv_all H :=
  repeat (apply bind_inv in H; destruct H as (? & ? & _ & H)).

Ltac returned H :=
  unfold ret in H; injection H as <- _; simpl; auto.

Lemma pangolin_latest_release_shape w st d st' :
  pangolin_latest_release w st = (Return d, st') -> release_or_error d.
Proof.
  unfold pangolin_latest_release. intros H. bind_inv_all H. returned H.
Qed.

Lemma published_then_release w e v st d st' :
  (published_date <- published_of w e ;; ret (html_release v published_date)) st
    = (Return d, st') ->
  html_outcome d.
Proof. intros H. bind_inv_all H. returned H. Qed.

Lemma link_scan_shape soup st d st' :
  link_scan soup st = (Return d, st') -> html_outcome d.
Proof.
  unfold link_scan. intros H.
  destruct (filter _ _); returned H.
Qed.

Lemma tags_page_shape w st d st' :
  tags_page w st = (Return d, st') -> html_outcome d.
Proof.
  unfold tags_page. intros H.
  apply bind_inv in H. destruct H as (resp & st1 & _ & H).
  apply bind_inv in H. destruct H as (? & st2 & _ & H). cbv zeta in H.
  destruct (select_one (soup resp) "div.Box-row") as [row |];
    [| now apply link_scan_shape in H].
  destruct (select_one row release_link);
    [now apply published_then_release in H | now apply link_scan_shape in H].
Qed.

Lemma html_outcome_shape d : html_outcome d -> release_or_error d.
Proof. now destruct d. Qed.

Lemma releases_page_shape w st d st' :
  releases_page w st = (Return d, st') -> html_outcome d.
Proof.
  unfold releases_page. intros H.
  apply bind_inv in H. destruct H as (resp & st1 & _ & H).
  apply bind_inv in H. destruct H as (? & st2 & _ & H). cbv zeta in H.
  destruct (first_selected (soup resp) selectors) as [header |];
    [| now apply tags_page_shape in H].
  destruct (first_selected header version_selectors);
    [now apply published_then_release in H | returned H].
Qed.

Lemma check_pangolin_version_returns w st :
  exists d st', check_pangolin_version w st = (Return d, st') /\ release_or_error d.
Proof.
  unfold check_pangolin_version. apply try_except_returns.
  - intros d st0 st' H. now apply pangolin_latest_release_shape in H.
  - intros e st0. apply try_except_returns.
    + intros d st1 st' H. now apply releases_page_shape, html_outcome_shape in H.
    + intros n st1. unfold ret. eexists _, _. split; [reflexivity | exact I].
Qed.

Lemma check_artic_version_returns w st :
  exists d st', check_artic_version w st = (Return d, st') /\ release_or_error d.
Proof.
  unfold check_artic_version. apply try_except_returns.
  - intros d st0 st' H. bind_inv_all H. returned H.
  - intros e st0. unfold ret. eexists _, _. split; [reflexivity | exact I].
Qed.

Lemma check_artic_sarscov2_primers_returns w st :
  exists d st', check_artic_sarscov2_primers w st = (Return d, st') /\ latest_or_error d.
Proof.
  unfold check_artic_sarscov2_primers. apply try_except_returns.
  - intros d st0 st' H.
    apply bind_inv in H. destruct H as (resp & st1 & _ & H).
    apply bind_inv in H. destruct H as (? & st2 & _ & H). cbv zeta in H.
    apply bind_inv in H. destruct H as (sorted & st3 & _ & H).
    destruct sorted; returned H.
  - intros e st0. unfold ret. eexists _, _. split; [reflexivity | exact I].
Qed.

Lemma nonempty_spec {A : Type} (l : list A) : nonempty l = true <-> l <> [].
Proof. destruct l; simpl; split; congruence. Qed.

Lemma sorted_or_unchanged_perm versions :
  Permutation versions (sorted_or_unchanged versions).
Proof.
  unfold sorted_or_unchanged.
  destruct (sort_versions_spec versions) as (sorted & -> & P & _). exact P.
Qed.

Lemma check_artic_ncov2019_primers_returns w st :
  exists d st', check_artic_ncov2019_primers w st = (Return d, st') /\ versions_or_error d.
Proof.
  unfold check_artic_ncov2019_primers. apply try_except_returns.
  - intros d st0 st' H.
    apply bind_inv in H. destruct H as (resp & st1 & _ & H).
    apply bind_inv in H. destruct H as (? & st2 & _ & H). cbv zeta in H.
    destruct (nonempty (detected_versions (soup resp))) eqn:N; [| returned H].
    unfold ret in H. injection H as <- _. simpl.
    apply nonempty_spec in N. intros E. apply N.
    apply Permutation_nil. rewrite <- E.
    apply Permutation_sym, sorted_or_unchanged_perm.
  - intros e st0. unfold ret. eexists _, _. split; [reflexivity | exact I].
Qed.

Lemma result_of_run {A : Type} (m : M A) a st' :
  m start = (Return a, st') -> result m = Return a.
Proof. unfold result. now intros ->. Qed.

Lemma pangolin_result w :
  exists d, result (check_pangolin_version w) = Return d /\ release_or_error d.
Proof.
  destruct (check_pangolin_version_returns w start) as (d & st' & E & S).
  exists d. split; [now apply result_of_run in E | exact S].
Qed.

Lemma artic_result w :
  exists d, result (check_artic_version w) = Return d /\ release_or_error d.
Proof.
  destruct (check_artic_version_returns w start) as (d & st' & E & S).
  exists d. split; [now apply result_of_run in E | exact S].
Qed.

Lemma sarscov2_result w :
  exists d, result (check_artic_sarscov2_primers w) = Return d /\ latest_or_error d.
Proof.
  destruct (check_artic_sarscov2_primers_returns w start) as (d & st' & E & S).
  exists d. split; [now apply result_of_run in E | exact S].
Qed.

Lemma ncov2019_result w :
  exists d, result (check_artic_ncov2019_primers w) = Return d /\ versions_or_error d.
Proof.
  destruct (check_artic_ncov2019_primers_returns w start) as (d & st' & E & S).
  exists d. split; [now apply result_of_run in E | exact S].
Qed.

(** ** What a call leaves untouched *)

Section Preserves.
Variable part : io -> list string.

Lemma preserves_ret {A : Type} (a : A) : preserves part (ret a).
Proof. intros st. reflexivity. Qed.

Lemma preserves_lift {A : Type} (o : outcome A) : preserves part (lift o).
Proof. intros st. reflexivity. Qed.

Lemma preserves_bind {A B : Type} (m : M A) (f : A -> M B) :
  preserves part m -> (forall a, preserves part (f a)) -> preserves part (bind m f).
Proof.
  intros Hm Hf st. unfold bind. specialize (Hm st).
  destruct (m st) as [[a | e] st1]; simpl in *; [| exact Hm].
  now rewrite Hf.
Qed.

Lemma preserves_try_except {A : Type} (m : M A) (h : string -> M A) :
  preserves part m -> (forall e, preserves part (h e)) -> preserves part (try_except m h).
Proof.
  intros Hm Hh st. unfold try_except. specialize (Hm st).
  destruct (m st) as [[a | e] st1]; simpl in *; [exact Hm |].
  now rewrite Hh.
Qed.
End Preserves.

Lemma print_keeps_requests w line : preserves requested (print w line).
Proof. intros st. unfold print. now destruct (stdout_write w line). Qed.

Lemma http_get_keeps_output w url : preserves printed (http_get w url).
Proof. intros st. reflexivity. Qed.

Create HintDb preserves.

#[local] Hint Resolve preserves_ret preserves_lift print_keeps_requests
  http_get_keeps_output : preserves.

Ltac preserves_step :=
  first
    [ solve [auto 1 with preserves nocore]
    | apply preserves_bind; [| intros ?]
    | apply preserves_try_except; [| intros ?]
    | match goal with
      | |- preserves _ (match ?x with _ => _ end) => destruct x
      end
    | progress cbv zeta ].

Ltac preserves_tac := repeat preserves_step.

Lemma published_of_silent w e : preserves printed (published_of w e).
Proof. unfold published_of. preserves_tac. Qed.

Lemma link_scan_silent soup : preserves printed (link_scan soup).
Proof. unfold link_scan. preserves_tac. Qed.

#[local] Hint Resolve published_of_silent link_scan_silent : preserves.

Lemma tags_page_silent w : preserves printed (tags_page w).
Proof. unfold tags_page. preserves_tac. Qed.

#[local] Hint Resolve tags_page_silent : preserves.

Lemma releases_page_silent w : preserves printed (releases_page w).
Proof. unfold releases_page. preserves_tac. Qed.

Lemma pangolin_latest_release_silent w : preserves printed (pangolin_latest_release w).
Proof. unfold pangolin_latest_release. preserves_tac. Qed.

#[local] Hint Resolve releases_page_silent pangolin_latest_release_silent : preserves.

Lemma check_pangolin_version_silent w : preserves printed (check_pangolin_version w).
Proof. unfold check_pangolin_version. preserves_tac. Qed.

Lemma check_artic_version_silent w : preserves printed (check_artic_version w).
Proof. unfold check_artic_version. preserves_tac. Qed.

Lemma check_artic_sarscov2_primers_silent w :
  preserves printed (check_artic_sarscov2_primers w).
Proof. unfold check_artic_sarscov2_primers. preserves_tac. Qed.

Lemma check_artic_ncov2019_primers_silent w :
  preserves printed (check_artic_ncov2019_primers w).
Proof. unfold check_artic_ncov2019_primers. preserves_tac. Qed.

Lemma print_release_no_request w d : preserves requested (print_release w d).
Proof. unfold print_release. preserves_tac. Qed.

Lemma print_versions_no_request w l : preserves requested (print_versions w l).
Proof. induction l; simpl; preserves_tac. Qed.

#[local] Hint Resolve print_versions_no_request : preserves.

Lemma print_schemes_no_request w d : preserves requested (print_schemes w d).
Proof. unfold print_schemes. preserves_tac. Qed.

Lemma silent_output {A : Type} (m : M A) : preserves printed m -> output m = [].
Proof. intros H. apply (H start). Qed.

Lemma no_request_requests {A : Type} (m : M A) : preserves requested m -> requests m = [].
Proof. intros H. apply (H start). Qed.

(** ** The report *)

Lemma prints_print w line : accepted w line -> prints (print w line) tt [line].
Proof.
  intros H st. unfold print, extend, said. rewrite H. simpl.
  now rewrite app_nil_r.
Qed.

Lemma prints_ret : prints (ret tt) tt [].
Proof. intros st. unfold ret. now rewrite extend_start_r. Qed.

Lemma prints_bind {A B : Type} (m : M A) (f : A -> M B) a b l1 l2 :
  prints m a l1 -> prints (f a) b l2 -> prints (bind m f) b (l1 ++ l2)%list.
Proof.
  intros H1 H2 st. unfold bind. rewrite (H1 st), (H2 _), extend_assoc.
  unfold extend, said. simpl. reflexivity.
Qed.

Lemma bind_prints {A B : Type} (m : M A) (f : A -> M B) a lines st :
  prints m a lines -> bind m f st = f a (extend st (said lines)).
Proof. intros H. unfold bind. now rewrite (H st). Qed.

Lemma prints_print_versions w versions :
  Forall (accepted w) (map version_line versions) ->
  prints (print_versions w versions) tt (map version_line versions).
Proof.
  induction versions as [|v versions IH]; simpl; intros F.
  - apply prints_ret.
  - inversion F as [|? ? Hv Hrest]; subst.
    apply (prints_bind _ _ tt tt [version_line v]);
      [now apply prints_print | now apply IH].
Qed.

Lemma prints_print_release w d :
  release_or_error d -> Forall (accepted w) (release_lines d) ->
  prints (print_release w d) tt (release_lines d).
Proof.
  destruct d as [version published_date url| | |e]; simpl;
    intros S F; try contradiction.
  - inversion F as [|? ? H1 F1]; subst. inversion F1 as [|? ? H2 F2]; subst.
    inversion F2 as [|? ? H3 _]; subst.
    apply (prints_bind _ _ tt tt [_] [_; _]); [now apply prints_print |].
    apply (prints_bind _ _ tt tt [_] [_]); now apply prints_print.
  - inversion F; subst. now apply prints_print.
Qed.

Lemma prints_print_schemes w d :
  Forall (accepted w) (schemes_lines d) ->
  prints (print_schemes w d) tt (schemes_lines d).
Proof.
  destruct d as [version published_date url|latest all url|all url|e]; simpl;
    intros F.
  - inversion F as [|? ? H1 F1]; subst. inversion F1 as [|? ? H2 _]; subst.
    apply (prints_bind _ _ tt tt [_] [_]); now apply prints_print.
  - inversion F as [|? ? H1 F1]; subst. apply Forall_app in F1.
    destruct F1 as [F1 F2]. inversion F2; subst.
    apply (prints_bind _ _ tt tt [_]); [now apply prints_print |].
    apply (prints_bind _ _ tt tt);
      [now apply prints_print_versions | now apply prints_print].
  - inversion F as [|? ? H1 F1]; subst. apply Forall_app in F1.
    destruct F1 as [F1 F2]. inversion F2; subst.
    apply (prints_bind _ _ tt tt [_]); [now apply prints_print |].
    apply (prints_bind _ _ tt tt);
      [now apply prints_print_versions | now apply prints_print].
  - inversion F; subst. now apply prints_print.
Qed.

(** [main] from the results of the three lookups it makes, when the
    output takes every line of the report. *)
Lemma main_run w p a s :
  result (check_pangolin_version w) = Return p -> release_or_error p ->
  result (check_artic_version w) = Return a -> release_or_error a ->
  result (check_artic_ncov2019_primers w) = Return s ->
  Forall (accepted w) (report p a s) ->
  main w start =
  (Return tt,
   {| requested :=
        List.concat [requests (check_pangolin_version w);
                     requests (check_artic_version w);
                     requests (check_artic_ncov2019_primers w)];
      printed := report p a s |}).
Proof.
  intros Hp Sp Ha Sa Hs F. unfold report in F. cbn [app] in F.
  repeat match type of F with
         | Forall _ (_ :: _) =>
             let H := fresh "L" in
             let F' := fresh "F" in
             inversion F as [|? ? H F']; subst; clear F; rename F' into F
         end.
  apply Forall_app in F. destruct F as [Fp F]. cbn [app] in F.
  inversion F as [|? ? L4 F1]; subst. inversion F1 as [|? ? L5 F2]; subst.
  apply Forall_app in F2. destruct F2 as [Fa F2]. cbn [app] in F2.
  inversion F2 as [|? ? L6 F3]; subst. inversion F3 as [|? ? L7 F4]; subst.
  apply Forall_app in F4. destruct F4 as [Fs F4].
  inversion F4 as [|? ? L8 _]; subst.
  unfold main.
  do 5 (rewrite (bind_prints (print w _) _ tt [_]) by now apply prints_print).
  rewrite (bind_run _ _ p) by (auto with uniform).
  rewrite (bind_prints (print_release w p) _ tt (release_lines p))
    by now apply prints_print_release.
  do 2 (rewrite (bind_prints (print w _) _ tt [_]) by now apply prints_print).
  rewrite (bind_run _ _ a) by (auto with uniform).
  rewrite (bind_prints (print_release w a) _ tt (release_lines a))
    by now apply prints_print_release.
  do 2 (rewrite (bind_prints (print w _) _ tt [_]) by now apply prints_print).
  rewrite (bind_run _ _ s) by (auto with uniform).
  rewrite (bind_prints (print_schemes w s) _ tt (schemes_lines s))
    by now apply prints_print_schemes.
  rewrite (prints_print w _ L8). f_equal.
  unfold extend, said, report. simpl. f_equal.
  - fold (requests (check_pangolin_version w)) (requests (check_artic_version w))
         (requests (check_artic_ncov2019_primers w)).
    rewrite !app_nil_r. now rewrite <- app_assoc.
  - fold (output (check_pangolin_version w)) (output (check_artic_version w))
         (output (check_artic_ncov2019_primers w)).
    rewrite (silent_output _ (check_pangolin_version_silent w)).
    rewrite (silent_output _ (check_artic_version_silent w)).
    rewrite (silent_output _ (check_artic_ncov2019_primers_silent w)).
    rewrite !app_nil_r. repeat (rewrite <- app_assoc; cbn [app]). reflexivity.
Qed.

(** From a call that returned to the lines it printed. *)
Lemma result_bind_inv {A B : Type} (m : M A) (f : A -> M B) b :
  uniform m -> (forall a, uniform (f a)) ->
  result (bind m f) = Return b ->
  exists a, result m = Return a /\ result (f a) = Return b.
Proof.
  intros Hm Hf. unfold result, bind. rewrite (Hm start).
  destruct (fst (m start)) as [a | e]; [| discriminate].
  rewrite (Hf a _). simpl. eauto.
Qed.

Lemma result_print_inv w line a :
  result (print w line) = Return a -> accepted w line.
Proof.
  unfold result, print, accepted.
  destruct (stdout_write w line) as [[] | e]; [reflexivity | discriminate].
Qed.

Tactic Notation "peel" hyp(H) "as" simple_intropattern(a) ident(P) :=
  apply result_bind_inv in H; [| solve [uniform_tac] | intros ?; solve [uniform_tac]];
  destruct H as (a & P & H).

Lemma result_print_versions_inv w versions :
  result (print_versions w versions) = Return tt ->
  Forall (accepted w) (map version_line versions).
Proof.
  induction versions as [|v versions IH]; simpl; intros H; [constructor |].
  peel H as [] P. apply result_print_inv in P.
  constructor; [exact P | now apply IH].
Qed.

Lemma result_print_release_inv w d :
  result (print_release w d) = Return tt -> Forall (accepted w) (release_lines d).
Proof.
  destruct d as [version published_date url| | |e]; simpl; intros H.
  - peel H as [] P1. peel H as [] P2.
    apply result_print_inv in P1, P2, H. now repeat constructor.
  - constructor.
  - constructor.
  - apply result_print_inv in H. now repeat constructor.
Qed.

Lemma result_print_schemes_inv w d :
  result (print_schemes w d) = Return tt -> Forall (accepted w) (schemes_lines d).
Proof.
  destruct d as [version published_date url|latest all url|all url|e]; simpl;
    intros H.
  - peel H as [] P1. apply result_print_inv in P1, H. now repeat constructor.
  - peel H as [] P1. peel H as [] P2. apply result_print_inv in P1, H.
    apply result_print_versions_inv in P2.
    constructor; [exact P1 |]. apply Forall_app. split; [exact P2 |].
    now repeat constructor.
  - peel H as [] P1. peel H as [] P2. apply result_print_inv in P1, H.
    apply result_print_versions_inv in P2.
    constructor; [exact P1 |]. apply Forall_app. split; [exact P2 |].
    now repeat constructor.
  - apply result_print_inv in H. now repeat constructor.
Qed.

(** When [main] returns, the output took every line of the report. *)
Lemma main_inv w p a s :
  result (check_pangolin_version w) = Return p ->
  result (check_artic_version w) = Return a ->
  result (check_artic_ncov2019_primers w) = Return s ->
  result (main w) = Return tt ->
  Forall (accepted w) (report p a s).
Proof.
  intros Hp Ha Hs H. unfold main in H.
  peel H as [] L1. peel H as [] L2. peel H as [] L3. peel H as [] L4.
  peel H as [] L5.
  peel H as p' Rp. rewrite Hp in Rp. injection Rp as <-.
  peel H as [] Fp. apply result_print_release_inv in Fp.
  peel H as [] L6. peel H as [] L7.
  peel H as a' Ra. rewrite Ha in Ra. injection Ra as <-.
  peel H as [] Fa. apply result_print_release_inv in Fa.
  peel H as [] L8. peel H as [] L9.
  peel H as s' Rs. rewrite Hs in Rs. injection Rs as <-.
  peel H as [] Fs. apply result_print_schemes_inv in Fs.
  apply result_print_inv in L1, L2, L3, L4, L5, L6, L7, L8, L9, H.
  unfold report.
  repeat (first [ apply Forall_cons; [assumption |]
                | apply Forall_app; split; [assumption |]
                | progress cbn [app] ]).
  constructor.
Qed.

(** ** The requests of each pipeline *)

Lemma bind_http_get {B : Type} w url (f : response -> M B) st :
  bind (http_get w url) f st =
  match requests_get w url with
  | Return r => f r {| requested := requested st ++ [url]; printed := printed st |}
  | Raise e => (Raise e, {| requested := requested st ++ [url]; printed := printed st |})
  end.
Proof. unfold bind, http_get. now destruct (requests_get w url). Qed.

Lemma bind_lift {A B : Type} (o : outcome A) (f : A -> M B) st :
  bind (lift o) f st =
  match o with
  | Return a => f a st
  | Raise e => (Raise e, st)
  end.
Proof. unfold bind, lift. now destruct o. Qed.

(** A pipeline that fetches one page and works on it makes one request. *)
Lemma requests_one_page {A B : Type} w url (f : response -> M A) (h : string -> M A) :
  (forall a, preserves requested (f a)) ->
  (forall e, preserves requested (h e)) ->
  requests (try_except (bind (http_get w url) f) h) = [url].
Proof.
  intros Hf Hh. unfold requests, try_except, bind, http_get. simpl.
  destruct (requests_get w url) as [resp | e]; simpl.
  - pose proof (Hf resp {| requested := [url]; printed := [] |}) as E.
    destruct (f resp _) as [[a | e] st1]; simpl in *; [exact E |].
    now rewrite Hh.
  - now rewrite Hh.
Qed.

Lemma requests_check_artic_version w :
  requests (check_artic_version w) = [artic_api].
Proof.
  unfold check_artic_version. apply (requests_one_page (B := unit)); intros; preserves_tac.
Qed.

Lemma requests_check_artic_sarscov2_primers w :
  requests (check_artic_sarscov2_primers w) = [sarscov2_url].
Proof.
  unfold check_artic_sarscov2_primers.
  apply (requests_one_page (B := unit)); intros; preserves_tac.
Qed.

Lemma requests_check_artic_ncov2019_primers w :
  requests (check_artic_ncov2019_primers w) = [ncov2019_url].
Proof.
  unfold check_artic_ncov2019_primers.
  apply (requests_one_page (B := unit)); intros; preserves_tac.
Qed.

Lemma requests_pangolin_latest_release w :
  requests (pangolin_latest_release w) = [pangolin_api].
Proof.
  unfold requests, pangolin_latest_release, bind at 1, http_get. simpl.
  destruct (requests_get w pangolin_api) as [resp | e]; [| reflexivity].
  match goal with
  | |- requested (snd (?m ?st)) = _ =>
      assert (P : preserves requested m) by preserves_tac; apply (P st)
  end.
Qed.

Lemma published_of_no_request w e : preserves requested (published_of w e).
Proof. unfold published_of. preserves_tac. Qed.

Lemma link_scan_no_request soup : preserves requested (link_scan soup).
Proof. unfold link_scan. preserves_tac. Qed.

#[local] Hint Resolve published_of_no_request link_scan_no_request : preserves.

Lemma requests_tags_page w : requests (tags_page w) = [pangolin_tags].
Proof.
  unfold requests, tags_page, bind at 1, http_get. simpl.
  destruct (requests_get w pangolin_tags) as [resp | e]; [| reflexivity].
  match goal with
  | |- requested (snd (?m ?st)) = _ =>
      assert (P : preserves requested m) by preserves_tac; apply (P st)
  end.
Qed.

(** The releases page, case by case. *)
Lemma releases_page_cases w :
  match requests_get w pangolin_releases with
  | Raise n =>
      result (releases_page w) = Raise n /\
      requests (releases_page w) = [pangolin_releases]
  | Return page =>
      match raise_for_status page with
      | Raise n =>
          result (releases_page w) = Raise n /\
          requests (releases_page w) = [pangolin_releases]
      | Return _ =>
          match first_selected (soup page) selectors with
          | None =>
              result (releases_page w) = result (tags_page w) /\
              requests (releases_page w) = [pangolin_releases; pangolin_tags]
          | Some release_element =>
              requests (releases_page w) = [pangolin_releases] /\
              match first_selected release_element version_selectors with
              | None =>
                  result (releases_page w) = Return (Error "Could not find version tag")
              | Some version_tag =>
                  result (releases_page w) =
                  match result (published_of w release_element) with
                  | Return published_date =>
                      Return (html_release (PyStr.strip (text version_tag)) published_date)
                  | Raise n => Raise n
                  end
              end
          end
      end
  end.
Proof.
  unfold result, requests, releases_page. rewrite bind_http_get.
  destruct (requests_get w pangolin_releases) as [page | n]; [| now split].
  rewrite bind_lift.
  destruct (raise_for_status page) as [[] | n]; [| now split].
  cbv zeta.
  destruct (first_selected (soup page) selectors) as [release_element |].
  - destruct (first_selected release_element version_selectors) as [version_tag |].
    + unfold bind.
      rewrite (uniform_run _ _ (uniform_published_of w release_element)).
      pose proof (published_of_no_request w release_element start) as Q.
      unfold result.
      destruct (published_of w release_element start) as [[d | n] st1];
        simpl in *; rewrite Q; now split.
    + now split.
  - rewrite (uniform_run _ _ (uniform_tags_page w)). simpl.
    fold (requests (tags_page w)). rewrite requests_tags_page. now split.
Qed.

(** The whole pipeline from its two stages. *)
Lemma check_pangolin_version_cases w :
  match result (pangolin_latest_release w) with
  | Return d =>
      result (check_pangolin_version w) = Return d /\
      requests (check_pangolin_version w) = [pangolin_api]
  | Raise e =>
      requests (check_pangolin_version w) = pangolin_api :: requests (releases_page w) /\
      result (check_pangolin_version w) =
      match result (releases_page w) with
      | Return d => Return d
      | Raise nested_e =>
          Return (Error ("Failed to retrieve Pangolin version: " ++ e ++ ", then " ++ nested_e))
      end
  end.
Proof.
  pose proof (requests_pangolin_latest_release w) as Q.
  unfold result, requests, check_pangolin_version, try_except in *.
  destruct (pangolin_latest_release w start) as [[d | e] st1]; simpl in *.
  - now split.
  - rewrite (uniform_run _ _ (uniform_releases_page w)). unfold result.
    destruct (releases_page w start) as [[d | n] st2]; simpl; rewrite Q; now split.
Qed.

(** The tags page, case by case: a first row with a tag link gives the
    version, anything else leaves it to the scan of all links. *)
Lemma tags_page_cases w :
  match requests_get w pangolin_tags with
  | Raise n => result (tags_page w) = Raise n
  | Return page =>
      match raise_for_status page with
      | Raise n => result (tags_page w) = Raise n
      | Return _ =>
          match select_one (soup page) "div.Box-row" with
          | Some tag_element =>
              match select_one tag_element release_link with
              | Some tag_link =>
                  result (tags_page w) =
                  match result (published_of w tag_element) with
                  | Return published_date =>
                      Return (html_release (PyStr.strip (text tag_link)) published_date)
                  | Raise n => Raise n
                  end
              | None => result (tags_page w) = result (link_scan (soup page))
              end
          | None => result (tags_page w) = result (link_scan (soup page))
          end
      end
  end.
Proof.
  unfold result, tags_page. rewrite bind_http_get.
  destruct (requests_get w pangolin_tags) as [page | n]; [| reflexivity].
  rewrite bind_lift.
  destruct (raise_for_status page) as [[] | n]; [| reflexivity].
  cbv zeta.
  destruct (select_one (soup page) "div.Box-row") as [tag_element |].
  - destruct (select_one tag_element release_link) as [tag_link |].
    + unfold bind.
      rewrite (uniform_run _ _ (uniform_published_of w tag_element)).
      unfold result.
      now destruct (published_of w tag_element start) as [[d | n] st1].
    + now rewrite (uniform_run _ _ (uniform_link_scan (soup page))).
  - now rewrite (uniform_run _ _ (uniform_link_scan (soup page))).
Qed.

Lemma requests_releases_page w :
  requests (releases_page w) = [pangolin_releases] \/
  requests (releases_page w) = [pangolin_releases; pangolin_tags].
Proof.
  pose proof (releases_page_cases w) as H.
  destruct (requests_get w pangolin_releases) as [page | n]; [| now left].
  destruct (raise_for_status page) as [[] | n]; [| now left].
  destruct (first_selected (soup page) selectors); [now left | now right].
Qed.

Lemma requests_check_pangolin_version w :
  exists rest,
    requests (check_pangolin_version w) = pangolin_api :: rest /\
    incl rest [pangolin_releases; pangolin_tags].
Proof.
  pose proof (check_pangolin_version_cases w) as H.
  destruct (result (pangolin_latest_release w)) as [d | e].
  - destruct H as [_ ->]. exists []. split; [reflexivity | apply incl_nil_l].
  - destruct H as [-> _]. eexists. split; [reflexivity |].
    destruct (requests_releases_page w) as [-> | ->].
    + intros x [<- | []]. now left.
    + apply incl_refl.
Qed.

Lemma result_releases_page_html w d :
  result (releases_page w) = Return d -> html_outcome d.
Proof.
  unfold result. intros H.
  destruct (releases_page w start) as [o st'] eqn:E. simpl in H. subst o.
  now apply releases_page_shape in E.
Qed.

(** ** What a result depends on *)





Lemma pangolin_latest_release_no_error w st d st' :
  pangolin_latest_release w st = (Return d, st') -> has_error d = false.
Proof.
  unfold pangolin_latest_release. intros H. bind_inv_all H. returned H.
Qed.

(** ** The claims about the package pipeline *)




(** C5, as the code has it.  A failure of the package pipeline means that
    the API stage raised; its message chains the text of that exception
    with the text of the exception of the HTML stage when that stage
    raised too, and otherwise it is one of the two fixed messages that the
    HTML stage returns when it finds nothing, which carry no cause. *)
Theorem pangolin_failure_message w msg :
  result (check_pangolin_version w) = Return (Error msg) ->
  exists e,
    result (pangolin_latest_release w) = Raise e /\
    ((exists nested_e,
        result (releases_page w) = Raise nested_e /\ msg = chained e nested_e) \/
     (result (releases_page w) = Return (Error msg) /\
      (msg = "Could not find Pangolin version information" \/
       msg = "Could not find version tag"))).
Proof.
  intros H.
  pose proof (check_pangolin_version_cases w) as C.
  destruct (result (pangolin_latest_release w)) as [d | e] eqn:HA.
  - destruct C as [C _]. rewrite C in H. injection H as ->.
    unfold result in HA.
    destruct (pangolin_latest_release w start) as [o st'] eqn:E.
    simpl in HA. subst o. now apply pangolin_latest_release_no_error in E.
  - exists e. split; [reflexivity |].
    destruct C as [_ C]. rewrite C in H.
    destruct (result (releases_page w)) as [d | n] eqn:HB.
    + right. injection H as ->. split; [reflexivity |].
      now apply result_releases_page_html in HB.
    + left. exists n. split; [reflexivity |]. now injection H as <-.
Qed.

(** A witness of [pangolin_failure_message]: nothing can be reached. *)
Lemma pangolin_failure_message_witness :
  result (check_pangolin_version offline)
    = Return (Error (chained "Connection refused" "Connection refused")) /\
  exists e,
    result (pangolin_latest_release offline) = Raise e /\
    ((exists nested_e,
        result (releases_page offline) = Raise nested_e /\
        chained "Connection refused" "Connection refused" = chained e nested_e) \/
     (result (releases_page offline)
        = Return (Error (chained "Connection refused" "Connection refused")) /\
      (chained "Connection refused" "Connection refused"
         = "Could not find Pangolin version information" \/
       chained "Connection refused" "Connection refused"
         = "Could not find version tag"))).
Proof.
  split; [reflexivity |].
  apply (pangolin_failure_message offline). reflexivity.
Defined.

(** C5 as stated fails: the API stage raises, the HTML stage finds nothing
    in either page without raising, and the message of the failure does
    not hold the text of the exception of the API stage. *)
Lemma empty_pages_message_has_no_cause :
  result (pangolin_latest_release empty_pages) = Raise "Connection refused" /\
  requests (check_pangolin_version empty_pages)
    = [pangolin_api; pangolin_releases; pangolin_tags] /\
  result (check_pangolin_version empty_pages)
    = Return (Error "Could not find Pangolin version information") /\
  PyStr.contains "Connection refused" "Could not find Pangolin version information"
    = false.
Proof. repeat split; reflexivity. Qed.

(** ** The claims about [main] *)

Section NeverAsks.
Variable url : string.

Lemma never_asks_ret {A : Type} (a : A) : never_asks url (ret a).
Proof. intros st H. exact H. Qed.

Lemma never_asks_lift {A : Type} (o : outcome A) : never_asks url (lift o).
Proof. intros st H. exact H. Qed.

Lemma never_asks_print w line : never_asks url (print w line).
Proof. intros st H. unfold print. now destruct (stdout_write w line). Qed.

Lemma never_asks_http_get w other :
  other <> url -> never_asks url (http_get w other).
Proof.
  intros N st H. unfold http_get. simpl. intros I.
  apply in_app_or in I. destruct I as [I | [I | []]]; [now apply H | now apply N].
Qed.

Lemma never_asks_bind {A B : Type} (m : M A) (f : A -> M B) :
  never_asks url m -> (forall a, never_asks url (f a)) -> never_asks url (bind m f).
Proof.
  intros Hm Hf st H. unfold bind. specialize (Hm st H).
  destruct (m st) as [[a | e] st1]; simpl in *; [| exact Hm].
  now apply Hf.
Qed.

Lemma never_asks_try_except {A : Type} (m : M A) (h : string -> M A) :
  never_asks url m -> (forall e, never_asks url (h e)) ->
  never_asks url (try_except m h).
Proof.
  intros Hm Hh st H. unfold try_except. specialize (Hm st H).
  destruct (m st) as [[a | e] st1]; simpl in *; [exact Hm |].
  now apply Hh.
Qed.
End NeverAsks.

Ltac never_asks_step :=
  first
    [ apply never_asks_ret | apply never_asks_lift | apply never_asks_print
    | apply never_asks_http_get; discriminate
    | apply never_asks_bind; [| intros ?]
    | apply never_asks_try_except; [| intros ?]
    | match goal with
      | |- never_asks _ (match ?x with _ => _ end) => destruct x
      end
    | progress cbv zeta ].

Lemma print_versions_never_asks url w versions :
  never_asks url (print_versions w versions).
Proof. induction versions; simpl; repeat never_asks_step. exact IHversions. Qed.

(** [main] never requests the address of the first primer set, whatever
    the network and the output do. *)
Lemma main_never_asks_sarscov2 w : never_asks sarscov2_url (main w).
Proof.
  unfold main, check_pangolin_version, pangolin_latest_release, releases_page,
    tags_page, published_of, link_scan, check_artic_version,
    check_artic_ncov2019_primers, print_release, print_schemes.
  repeat first [apply print_versions_never_asks | never_asks_step].
Qed.

(** C1, as the code has it: [main] makes three lookups, the package
    release, the tool release and the second primer set, and prints the
    result of each: for a failure its message after two blanks, for a
    release its version, its date and its address, for the primer set a
    title, one line for each version and the address.  This is the whole
    run when the output takes every line.  Whatever happens, [main] never
    calls [check_artic_sarscov2_primers], whose address it never
    requests. *)
Theorem main_makes_three_lookups w :
  exists p a s,
    result (check_pangolin_version w) = Return p /\ release_or_error p /\
    result (check_artic_version w) = Return a /\ release_or_error a /\
    result (check_artic_ncov2019_primers w) = Return s /\ versions_or_error s /\
    (Forall (accepted w) (report p a s) ->
     main w start =
     (Return tt,
      {| requested :=
           List.concat [requests (check_pangolin_version w);
                        requests (check_artic_version w);
                        requests (check_artic_ncov2019_primers w)];
         printed :=
           List.concat
             [[rule "="; "CHECKING LATEST VERSIONS OF SARS-CoV-2 TOOLS"; rule "=";
               nl ++ "1. Pangolin Repository"; rule "-"];
              release_lines p;
              [nl ++ "2. ARTIC Field Bioinformatics"; rule "-"];
              release_lines a;
              [nl ++ "3. ARTIC nCoV-2019 Primer Schemes"; rule "-"];
              schemes_lines s;
              [nl ++ rule "="]] |}) /\
     In pangolin_api (requests (main w)) /\
     In artic_api (requests (main w)) /\
     In ncov2019_url (requests (main w))) /\
    ~ In sarscov2_url (requests (main w)).
Proof.
  destruct (pangolin_result w) as (p & Hp & Sp).
  destruct (artic_result w) as (a & Ha & Sa).
  destruct (ncov2019_result w) as (s & Hs & Ss).
  exists p, a, s. repeat (split; [assumption |]). split.
  - intros F. pose proof (main_run w p a s Hp Sp Ha Sa Hs F) as E.
    split.
    + rewrite E. unfold report. cbn [List.concat].
      now rewrite app_nil_r.
    + unfold requests at 1 2 3. rewrite E. cbn [snd requested List.concat].
      rewrite requests_check_artic_version, requests_check_artic_ncov2019_primers.
      destruct (requests_check_pangolin_version w) as (rest & -> & I).
      repeat split.
      * now left.
      * apply in_or_app. right. now left.
      * apply in_or_app. right. right. now left.
  - apply (main_never_asks_sarscov2 w start). intros [].
Qed.

(** A witness of [main_makes_three_lookups]: nothing can be reached and
    the output takes every line. *)
Lemma main_makes_three_lookups_witness :
  Forall (accepted offline)
    (report (Error (chained "Connection refused" "Connection refused"))
            (Error "Failed to retrieve ARTIC version: Connection refused")
            (Error "Failed to retrieve ARTIC nCoV-2019 primers: Connection refused")) /\
  ~ In sarscov2_url (requests (main offline)).
Proof.
  split.
  - apply Forall_forall. intros line _. reflexivity.
  - destruct (main_makes_three_lookups offline) as (p & a & s & H).
    apply H.
Defined.

(** C1 as stated fails: the listing of the first primer set can be
    fetched and holds V1 and V2, and [main] neither requests it nor prints
    anything about it. *)
Lemma main_never_asks_for_sarscov2 :
  result (check_artic_sarscov2_primers listing_V1_V2)
    = Return (Latest "V2" ["V2"; "V1"] (sarscov2_url ++ "/V2")) /\
  ~ In sarscov2_url (requests (main listing_V1_V2)) /\
  output (main listing_V1_V2) =
    [rule "="; "CHECKING LATEST VERSIONS OF SARS-CoV-2 TOOLS"; rule "=";
     nl ++ "1. Pangolin Repository"; rule "-";
     "  " ++ chained "Connection refused" "Connection refused";
     nl ++ "2. ARTIC Field Bioinformatics"; rule "-";
     "  Failed to retrieve ARTIC version: Connection refused";
     nl ++ "3. ARTIC nCoV-2019 Primer Schemes"; rule "-";
     "  Failed to retrieve ARTIC nCoV-2019 primers: Connection refused";
     nl ++ rule "="].
Proof.
  split; [vm_compute; reflexivity |]. split; [| vm_compute; reflexivity].
  vm_compute. intros [H | [H | [H | [H | []]]]]; discriminate.
Qed.




(** ** The claims about the primer pipelines *)

Lemma version_names_filter rows :
  version_names rows = filter (is_match version_re) (directory_names rows).
Proof.
  induction rows as [|row rows IH]; simpl; [reflexivity |].
  destruct (find row "svg" _); [| exact IH].
  destruct (find row "a" _) as [name_element |]; [| exact IH].
  simpl. rewrite IH. reflexivity.
Qed.

Lemma directory_names_nil rows :
  directory_names rows = [] <-> filter is_directory_row rows = [].
Proof.
  induction rows as [|row rows IH]; simpl; [tauto |].
  unfold is_directory_row.
  destruct (find row "svg" _); [| exact IH].
  destruct (find row "a" _); [| exact IH].
  split; discriminate.
Qed.

Lemma chosen_names_nil rows :
  chosen_names rows = [] <-> directory_names rows = [].
Proof.
  unfold chosen_names. rewrite version_names_filter.
  destruct (filter _ (directory_names rows)) eqn:E; simpl; [tauto |].
  split; [discriminate |]. intros H. now rewrite H in E.
Qed.

(** The first primer pipeline on a page that was fetched. *)
Lemma sarscov2_on_page w page :
  requests_get w sarscov2_url = Return page ->
  raise_for_status page = Return tt ->
  exists sorted,
    sort_versions (chosen_names (box_rows page)) = Return sorted /\
    Permutation (chosen_names (box_rows page)) sorted /\
    StronglySorted not_below sorted /\
    result (check_artic_sarscov2_primers w) =
    Return match sorted with
           | [] => Error "No primer versions found"
           | latest_version :: _ =>
               Latest latest_version sorted (sarscov2_url ++ "/" ++ latest_version)
           end.
Proof.
  intros Hp Hs.
  destruct (sort_versions_spec (chosen_names (box_rows page)))
    as (sorted & E & P & S & _).
  exists sorted. repeat split; try assumption.
  unfold result, check_artic_sarscov2_primers, try_except.
  rewrite bind_http_get, Hp, bind_lift, Hs. cbv zeta.
  fold (box_rows page). fold (chosen_names (box_rows page)).
  rewrite bind_lift, E. now destruct sorted.
Qed.

(** C7: on every listing that is fetched, the first primer pipeline sorts
    the names that look like versions and, when there is none, the names
    of all directory rows; it fails exactly when there is no directory row
    at all; and when the directories are V1 and V2 it reports V2 as the
    latest and ["V2", "V1"] as all the versions. *)
Theorem sarscov2_fallback_and_failure w page :
  requests_get w sarscov2_url = Return page ->
  raise_for_status page = Return tt ->
  exists d,
    result (check_artic_sarscov2_primers w) = Return d /\
    (has_error d = true <-> filter is_directory_row (box_rows page) = []) /\
    (version_names (box_rows page) = [] ->
     directory_names (box_rows page) <> [] ->
     exists latest sorted,
       d = Latest latest sorted (sarscov2_url ++ "/" ++ latest) /\
       hd_error sorted = Some latest /\
       Permutation (directory_names (box_rows page)) sorted /\
       StronglySorted not_below sorted) /\
    (Permutation ["V1"; "V2"] (directory_names (box_rows page)) ->
     d = Latest "V2" ["V2"; "V1"] (sarscov2_url ++ "/V2")).
Proof.
  intros Hp Hs.
  destruct (sarscov2_on_page w page Hp Hs) as (sorted & E & P & S & R).
  eexists. split; [exact R |]. split; [| split].
  - rewrite <- directory_names_nil, <- chosen_names_nil.
    destruct sorted as [|x sorted]; simpl.
    + apply Permutation_sym, Permutation_nil in P. now split.
    + split; [discriminate |]. intros H. rewrite H in P.
      now apply Permutation_nil in P.
  - intros Hv Hd. unfold chosen_names in P. rewrite Hv in P. simpl in P.
    destruct sorted as [|x sorted].
    + apply Permutation_sym, Permutation_nil in P. contradiction.
    + exists x, (x :: sorted). now repeat split.
  - intros H. apply Permutation_length_2_inv in H.
    unfold chosen_names in E. rewrite version_names_filter in E.
    destruct H as [H | H]; rewrite H in E; vm_compute in E;
      injection E as <-; reflexivity.
Qed.

(** A witness of [sarscov2_fallback_and_failure]: a listing with a file
    and the directories V1 and V2. *)
Lemma sarscov2_fallback_and_failure_witness :
  requests_get listing_V1_V2 sarscov2_url = Return page_V1_V2 /\
  raise_for_status page_V1_V2 = Return tt /\
  Permutation ["V1"; "V2"] (directory_names (box_rows page_V1_V2)) /\
  exists d,
    result (check_artic_sarscov2_primers listing_V1_V2) = Return d /\
    d = Latest "V2" ["V2"; "V1"] (sarscov2_url ++ "/V2").
Proof.
  split; [reflexivity |]. split; [reflexivity |].
  assert (P : Permutation ["V1"; "V2"] (directory_names (box_rows page_V1_V2)))
    by apply Permutation_refl.
  split; [exact P |].
  destruct (sarscov2_fallback_and_failure listing_V1_V2 page_V1_V2 eq_refl eq_refl)
    as (d & R & _ & _ & H).
  exists d. split; [exact R | exact (H P)].
Defined.

Lemma mem_spec x l : mem x l = true <-> In x l.
Proof.
  unfold mem. rewrite existsb_exists. split.
  - intros (y & Hy & E). apply String.eqb_eq in E. now subst.
  - intros H. exists x. split; [exact H | apply String.eqb_refl].
Qed.

Lemma remove_duplicates_in versions : forall seen x,
  In x (remove_duplicates seen versions) <-> In x versions /\ mem x seen = false.
Proof.
  induction versions as [|y versions IH]; intros seen x; simpl; [tauto |].
  destruct (mem y seen) eqn:M.
  - rewrite IH. split.
    + intros [H1 H2]. auto.
    + intros [[<- | H1] H2]; [congruence | auto].
  - simpl. rewrite IH. simpl.
    destruct (String.eqb_spec x y) as [-> | N]; simpl.
    + split; auto.
    + split.
      * intros [E | [H1 H2]]; [congruence | auto].
      * intros [[E | H1] H2]; [congruence | auto].
Qed.

Lemma remove_duplicates_NoDup versions : forall seen,
  NoDup (remove_duplicates seen versions).
Proof.
  induction versions as [|y versions IH]; intros seen; simpl; [constructor |].
  destruct (mem y seen); [apply IH |].
  constructor; [| apply IH].
  rewrite remove_duplicates_in. simpl. rewrite String.eqb_refl. simpl.
  intros [_ H]. discriminate.
Qed.

(** A list without repetition goes through unchanged: the first
    occurrences stay where they are. *)
Lemma remove_duplicates_id versions : forall seen,
  NoDup versions -> (forall x, In x versions -> mem x seen = false) ->
  remove_duplicates seen versions = versions.
Proof.
  induction versions as [|y versions IH]; intros seen N H; simpl; [reflexivity |].
  inversion N as [|? ? Hy N']; subst.
  rewrite (H y (or_introl eq_refl)). f_equal. apply IH; [exact N' |].
  intros x Hx. simpl.
  destruct (String.eqb_spec x y) as [-> | _]; [contradiction |].
  simpl. apply H. now right.
Qed.

Lemma link_names_not_self links :
  Forall (fun x => self_reference x = false) (link_names links).
Proof.
  induction links as [|a_tag links IH]; simpl; [constructor |].
  destruct (has_attr a_tag "href" && _ && _); [| exact IH].
  destruct (negb (String.eqb _ "..") && _ && _) eqn:E; [| exact IH].
  constructor; [| exact IH].
  apply andb_true_iff in E. destruct E as [E E3].
  apply andb_true_iff in E. destruct E as [E1 E2].
  apply negb_true_iff in E1, E2, E3.
  unfold self_reference. now rewrite E1, E2, E3.
Qed.

Lemma remove_duplicates_seen_ext versions : forall seen seen',
  (forall z, mem z seen = mem z seen') ->
  remove_duplicates seen versions = remove_duplicates seen' versions.
Proof.
  induction versions as [|y versions IH]; intros seen seen' H; simpl;
    [reflexivity |].
  rewrite <- (H y). destruct (mem y seen); [now apply IH |].
  f_equal. apply IH. intros z. simpl. now rewrite H.
Qed.

Lemma filter_idempotent {A : Type} (f : A -> bool) l :
  filter f (filter f l) = filter f l.
Proof.
  induction l as [|x l IH]; simpl; [reflexivity |].
  destruct (f x) eqn:E; simpl; [now rewrite E, IH | exact IH].
Qed.

(** A name that has been seen is a name taken out of the result. *)
Lemma remove_duplicates_seen_cons versions : forall seen x,
  remove_duplicates (x :: seen) versions
  = filter (fun y => negb (String.eqb y x)) (remove_duplicates seen versions).
Proof.
  induction versions as [|y versions IH]; intros seen x; simpl; [reflexivity |].
  destruct (String.eqb_spec y x) as [-> | N]; simpl.
  - destruct (mem x seen); [apply IH |].
    simpl. rewrite String.eqb_refl. simpl.
    now rewrite IH, filter_idempotent.
  - destruct (mem y seen); [apply IH |].
    simpl. apply String.eqb_neq in N. rewrite N. simpl. f_equal.
    rewrite <- IH. apply remove_duplicates_seen_ext.
    intros z. simpl. now rewrite !orb_assoc, (orb_comm (String.eqb z y)).
Qed.

(** The first name stays first, and what follows is the result for the
    other names without it: every name stands where it is first seen. *)
Lemma remove_duplicates_first_seen x versions :
  remove_duplicates [] (x :: versions)
  = x :: filter (fun y => negb (String.eqb y x)) (remove_duplicates [] versions).
Proof. simpl. f_equal. apply remove_duplicates_seen_cons. Qed.

(** C10: in the second primer pipeline the names of the link scan have no
    repetition and no entry that refers to the directory itself, and each
    stands where it is first seen among the links; the names found by
    role or by class are taken as they are: the list that is returned has
    all of them, repetitions and such entries included. *)
Theorem ncov2019_only_links_are_filtered w page :
  requests_get w ncov2019_url = Return page ->
  raise_for_status page = Return tt ->
  (NoDup (first_seen_links (soup page)) /\
   Forall (fun x => self_reference x = false) (first_seen_links (soup page)) /\
   (forall x, In x (first_seen_links (soup page)) <->
              In x (link_names (find_all (soup page) "a" None))) /\
   (forall x rest,
      link_names (find_all (soup page) "a" None) = x :: rest ->
      first_seen_links (soup page)
      = x :: filter (fun y => negb (String.eqb y x)) (remove_duplicates [] rest)) /\
   (forall x names,
      remove_duplicates [] (x :: names)
      = x :: filter (fun y => negb (String.eqb y x)) (remove_duplicates [] names))) /\
  detected_versions (soup page) =
    (if nonempty (first_seen_links (soup page)) then first_seen_links (soup page)
     else if nonempty (role_names (soup page)) then role_names (soup page)
     else class_names (soup page)) /\
  (detected_versions (soup page) <> [] ->
   exists sorted,
     result (check_artic_ncov2019_primers w) = Return (Versions sorted ncov2019_url) /\
     Permutation (detected_versions (soup page)) sorted) /\
  (link_names (find_all (soup page_by_links) "a" None) = ["v1"; "V3"; "V1"; "v1"; "V3"] /\
   first_seen_links (soup page_by_links) = ["v1"; "V3"; "V1"] /\
   result (check_artic_ncov2019_primers listing_by_links)
     = Return (Versions ["V3"; "v1"; "V1"] ncov2019_url)) /\
  result (check_artic_ncov2019_primers listing_by_role)
    = Return (Versions ["V1"; "V1"; ".."] ncov2019_url) /\
  result (check_artic_ncov2019_primers listing_by_class)
    = Return (Versions ["nCoV-2019"; "V2"; "V2"] ncov2019_url).
Proof.
  intros Hp Hs. split; [| split; [| split]].
  - unfold first_seen_links. split; [apply remove_duplicates_NoDup |].
    split; [| split; [| split]].
    + apply Forall_forall. intros x Hx. apply remove_duplicates_in in Hx.
      destruct Hx as [Hx _].
      pose proof (link_names_not_self (find_all (soup page) "a" None)) as F.
      rewrite Forall_forall in F. now apply F.
    + intros x. rewrite remove_duplicates_in. simpl. tauto.
    + intros x rest ->. apply remove_duplicates_first_seen.
    + apply remove_duplicates_first_seen.
  - unfold detected_versions, role_names, class_names. cbv zeta.
    fold (first_seen_links (soup page)).
    destruct (nonempty (first_seen_links (soup page))) eqn:N; [| reflexivity].
    now rewrite N.
  - intros N. exists (sorted_or_unchanged (detected_versions (soup page))).
    split; [| apply sorted_or_unchanged_perm].
    unfold result, check_artic_ncov2019_primers, try_except.
    rewrite bind_http_get, Hp, bind_lift, Hs. cbv zeta.
    apply nonempty_spec in N. now rewrite N.
  - repeat split; vm_compute; reflexivity.
Qed.

(** A witness of [ncov2019_only_links_are_filtered]: a page whose links
    to directories are repeated and refer to the directory itself and to
    its parent. *)
Lemma ncov2019_only_links_are_filtered_witness :
  requests_get listing_by_links ncov2019_url = Return page_by_links /\
  raise_for_status page_by_links = Return tt /\
  NoDup (first_seen_links (soup page_by_links)) /\
  Forall (fun x => self_reference x = false) (first_seen_links (soup page_by_links)) /\
  first_seen_links (soup page_by_links)
  = "v1" :: filter (fun y => negb (String.eqb y "v1"))
              (remove_duplicates [] ["V3"; "V1"; "v1"; "V3"]).
Proof.
  split; [reflexivity |]. split; [reflexivity |].
  destruct (ncov2019_only_links_are_filtered listing_by_links page_by_links
              eq_refl eq_refl) as ((N & F & _ & O & _) & _).
  split; [exact N |]. split; [exact F |].
  apply O. reflexivity.
Defined.

(** ** Further properties: the version pattern *)

(** A star whose continuation accepts the subject finds a match. *)
Lemma run_star_some {R : Type} n r s (k : string -> option R) :
  (exists x, k s = Some x) -> exists x, Re.run n (Re.Star r) s k = Some x.
Proof.
  intros H. rewrite run_eq. destruct n; [exact H |].
  match goal with |- exists _, match ?m with _ => _ end = _ => destruct m end;
    eauto.
Qed.

Lemma digits_then_groups n d s :
  PyStr.is_decimal d = true ->
  exists x,
    Re.run n (Re.Cat (Re.Plus digit)
                     (Re.Star (Re.Cat (Re.Chr (is_char ".")) (Re.Plus digit))))
           (String d s) (fun rest => Some rest) = Some x.
Proof.
  intros Hd. rewrite run_eq. unfold Re.Plus at 1. rewrite run_eq.
  unfold digit at 1. rewrite run_eq, Hd.
  apply run_star_some, run_star_some. eauto.
Qed.

Lemma decimal_not_V c :
  PyStr.is_decimal c = true -> is_char "V" c || is_char "v" c = false.
Proof.
  intros H. unfold is_char.
  destruct (Ascii.eqb_spec "V" c) as [<- | _]; [discriminate |].
  destruct (Ascii.eqb_spec "v" c) as [<- | _]; [discriminate | reflexivity].
Qed.

Lemma starts_like_version_append m rest :
  starts_like_version m = true -> starts_like_version (m ++ rest) = true.
Proof.
  destruct m as [|c [|d m]]; simpl; try discriminate.
  - rewrite andb_false_r, orb_false_r. now intros ->.
  - trivial.
Qed.

Lemma lang_version_starts m : Re.lang version_re m -> starts_like_version m = true.
Proof.
  intros H. inversion H as [| |? ? o t Ho Ht| | | |]; subst.
  inversion Ht as [| |? ? d g Hd Hg| | | |]; subst.
  apply lang_plus_digit, digits_head in Hd. destruct Hd as (c & d' & -> & Hc).
  inversion Ho as [| | |? ? ? H1|? ? ? H1| |]; subst.
  - inversion H1 as [|? v Hv| | | | |]; subst. simpl. rewrite Hv, Hc.
    apply orb_true_r.
  - inversion H1; subst. simpl. now rewrite Hc.
Qed.

Lemma is_match_version_re name :
  is_match version_re name = starts_like_version name.
Proof.
  unfold is_match.
  destruct (Re.match_prefix version_re name) as [rest |] eqn:E.
  - apply match_prefix_sound in E. destruct E as (m & -> & L & _).
    symmetry. now apply starts_like_version_append, lang_version_starts.
  - destruct (starts_like_version name) eqn:Hs; [| reflexivity].
    exfalso. unfold Re.match_prefix, version_re in E.
    rewrite run_eq in E. unfold Re.Opt in E. rewrite run_eq in E.
    destruct name as [|c rest]; [discriminate |].
    rewrite (run_eq _ (Re.Chr _)) in E. cbn [starts_like_version] in Hs.
    destruct (PyStr.is_decimal c) eqn:Hc.
    + rewrite (decimal_not_V c Hc) in E. rewrite run_eq in E.
      destruct (digits_then_groups (S (String.length (String c rest))) c rest Hc)
        as (x & Hx).
      congruence.
    + rewrite orb_false_l in Hs. apply andb_true_iff in Hs.
      destruct Hs as [Hv Hd].
      rewrite Hv in E. destruct rest as [|d rest]; [discriminate |].
      destruct (digits_then_groups (S (String.length (String c (String d rest))))
                  d rest Hd) as (x & Hx).
      rewrite Hx in E. discriminate.
Qed.

(** X7: [re.match] with the version pattern looks at the start of a name
    only: a name is taken for a version exactly when it starts with a
    digit, or with V or v and then a digit, whatever follows. *)
Theorem version_pattern_is_a_prefix_test name :
  is_match version_re name = starts_like_version name.
Proof. apply is_match_version_re. Qed.

(** ** Further properties: keys and the sort *)

(** X13: text without digits in front of a label adds nothing to its key:
    a prefix such as V or nCoV- is passed over. *)
Theorem sort_key_skips_prefix prefix label :
  PyStr.any_char PyStr.is_decimal prefix = false ->
  sort_key (prefix ++ label) = sort_key label.
Proof.
  induction prefix as [|c prefix IH]; simpl; [reflexivity |].
  intros H. apply orb_false_iff in H. destruct H as [Hc Hp].
  rewrite <- (IH Hp). unfold sort_key, Re.findall. simpl.
  destruct (Re.match_prefix number_re (String c (prefix ++ label))) eqn:E;
    [| reflexivity].
  apply number_match_head in E. destruct E as (c' & s' & [= <- <-] & Hc').
  congruence.
Qed.

Lemma sort_key_skips_prefix_witness :
  PyStr.any_char PyStr.is_decimal "nCoV-" = false /\
  sort_key ("nCoV-" ++ "2019") = sort_key "2019".
Proof.
  split; [reflexivity |].
  apply (sort_key_skips_prefix "nCoV-" "2019"). reflexivity.
Defined.

Lemma insert_below {A K : Type} (ltb : K -> K -> bool) (x : K * A) l :
  Forall (ascending ltb x) l -> insert ltb x l = x :: l.
Proof.
  destruct l as [|y l]; [reflexivity |].
  intros F. inversion F as [|? ? Hy _]; subst.
  simpl. unfold ascending in Hy. now rewrite Hy.
Qed.

Lemma stable_sort_of_sorted {A K : Type} (ltb : K -> K -> bool) (l : list (K * A)) :
  StronglySorted (ascending ltb) l -> stable_sort ltb l = l.
Proof.
  induction 1 as [|x l Hl IH Hx]; simpl; [reflexivity |].
  rewrite IH. now apply insert_below.
Qed.

Lemma decorated_sorted labels :
  StronglySorted not_below labels ->
  StronglySorted (fun x y => ascending key_ltb y x) (decorated labels).
Proof.
  induction 1 as [|x l Hl IH Hx]; simpl; [constructor |].
  constructor; [exact IH |].
  unfold decorated. rewrite Forall_map. exact Hx.
Qed.

(** A list that is already in descending order of the keys comes back
    as it is. *)
Lemma sort_versions_of_sorted labels :
  StronglySorted not_below labels -> sort_versions labels = Return labels.
Proof.
  intros H. rewrite sort_versions_eq.
  rewrite stable_sort_of_sorted.
  - now rewrite rev_involutive, decorated_snd.
  - apply decorated_sorted, sorted_rev in H.
    eapply StronglySorted_ind with (P := StronglySorted (ascending key_ltb));
      [constructor | | exact H].
    intros a l Hl IH F. now constructor.
Qed.

(** X15: sorting is idempotent: the sort of a list of labels returns a list
    that the same sort leaves unchanged. *)
Theorem sort_versions_idempotent labels :
  exists sorted,
    sort_versions labels = Return sorted /\ sort_versions sorted = Return sorted.
Proof.
  destruct (sort_versions_spec labels) as (sorted & E & _ & S & _).
  exists sorted. split; [exact E | now apply sort_versions_of_sorted].
Qed.

(** ** Further properties: a label that is a number *)

Lemma head_not_decimal_digit (rest : string) (R : Type) n (k : string -> option R) :
  match rest with
  | String c _ => PyStr.is_decimal c = false
  | EmptyString => True
  end ->
  Re.run n digit rest k = None.
Proof.
  intros H. unfold digit. rewrite run_eq.
  destruct rest as [|c rest]; [reflexivity | now rewrite H].
Qed.

(** A star of digits takes all the digits there are when what follows is
    accepted. *)
Lemma run_star_digits {R : Type} a : forall n rest (k : string -> option R) x,
  PyStr.all_chars PyStr.is_decimal a = true ->
  match rest with
  | String c _ => PyStr.is_decimal c = false
  | EmptyString => True
  end ->
  String.length (a ++ rest) < n ->
  k rest = Some x ->
  Re.run n (Re.Star digit) (a ++ rest) k = Some x.
Proof.
  induction a as [|c a IH]; intros n rest k x Ha Hr Hn Hk.
  - simpl in *. rewrite run_eq. destruct n; [lia |].
    now rewrite head_not_decimal_digit.
  - simpl in Ha. apply andb_true_iff in Ha. destruct Ha as [Hc Ha].
    rewrite run_eq. destruct n; [simpl in Hn; lia |].
    unfold digit at 1. rewrite run_eq. cbn [append]. rewrite Hc.
    cbn [String.length append] in *.
    destruct (Nat.ltb_spec (String.length (a ++ rest)) (S (String.length (a ++ rest))));
      [| lia].
    rewrite (IH n rest k x Ha Hr); [reflexivity | lia | exact Hk].
Qed.

Lemma run_plus_digits {R : Type} a n rest (k : string -> option R) x :
  digits a ->
  match rest with
  | String c _ => PyStr.is_decimal c = false
  | EmptyString => True
  end ->
  String.length (a ++ rest) < n ->
  k rest = Some x ->
  Re.run n (Re.Plus digit) (a ++ rest) k = Some x.
Proof.
  intros [Ha Hne] Hr Hn Hk. destruct a as [|c a]; [congruence |].
  simpl in Ha. apply andb_true_iff in Ha. destruct Ha as [Hc Ha].
  unfold Re.Plus. rewrite run_eq. unfold digit at 1. rewrite run_eq.
  cbn [append]. rewrite Hc.
  apply run_star_digits; try assumption. simpl in Hn. lia.
Qed.

(** The number pattern matches the whole of digits-dot-digits. *)
Lemma match_dotted a b :
  digits a -> digits b ->
  Re.match_prefix number_re (a ++ String "." b) = Some "".
Proof.
  intros Ha Hb. unfold Re.match_prefix, number_re.
  rewrite run_eq, run_eq.
  rewrite (run_plus_digits a _ (String "." b) _ ""); try assumption.
  - reflexivity.
  - reflexivity.
  - lia.
  - rewrite run_eq. unfold is_char at 1. rewrite run_eq. simpl Ascii.eqb.
    cbv iota.
    rewrite <- (append_empty_r b).
    apply run_plus_digits; try assumption; try exact I; try reflexivity.
    rewrite append_empty_r, length_append. simpl. lia.
Qed.

Lemma findall_from_skip_rest s :
  Re.findall_from number_re (String.length s) s = [].
Proof.
  induction s as [|c s IH]; simpl; [reflexivity | exact IH].
Qed.

(** The only token of digits-dot-digits is the whole of it. *)
Lemma findall_dotted a b :
  digits a -> digits b ->
  Re.findall number_re (a ++ String "." b) = [a ++ String "." b].
Proof.
  intros Ha Hb. pose proof (match_dotted a b Ha Hb) as M.
  destruct (digits_head a Ha) as (c & a' & -> & _).
  unfold Re.findall. simpl append in *. simpl Re.findall_from.
  rewrite M. unfold Re.matched.
  assert (T : forall s, PyStr.take (String.length s - String.length "") s = s).
  { intros s. simpl String.length. rewrite Nat.sub_0_r.
    induction s as [|x s IHs]; simpl; [reflexivity | now rewrite IHs]. }
  rewrite T. f_equal. cbn [String.length]. rewrite Nat.sub_1_r. simpl pred.
  apply findall_from_skip_rest.
Qed.

Lemma digits_value_zero s : forall acc,
  PyFloat.digits_value acc (s ++ "0") = (10 * PyFloat.digits_value acc s)%N.
Proof.
  induction s as [|c s IH]; intros acc; simpl.
  - unfold PyFloat.digit_value. simpl. lia.
  - apply IH.
Qed.

Lemma N_mul_compare c x y : (c <> 0)%N -> (c * x ?= c * y)%N = (x ?= y)%N.
Proof.
  intros Hc. destruct (N.compare_spec x y) as [-> | H | H].
  - apply N.compare_refl.
  - apply N.compare_lt_iff. nia.
  - apply N.compare_gt_iff. nia.
Qed.

(** Scaling both terms of a fraction does not change its double. *)
Lemma round_scale c p q :
  (c <> 0)%N -> PyFloat.round (c * p) (c * q) = PyFloat.round p q.
Proof.
  intros Hc. unfold PyFloat.round.
  rewrite !N.shiftl_mul_pow2.
  replace (c * p * 2 ^ 1074)%N with (c * (p * 2 ^ 1074))%N by lia.
  set (P := (p * 2 ^ 1074)%N).
  rewrite (N.Div0.div_mul_cancel_l P q c Hc).
  set (e := (N.size (P / q) - 53)%N).
  replace (c * q * 2 ^ e)%N with (c * (q * 2 ^ e))%N by lia.
  rewrite (N.Div0.div_mul_cancel_l P _ c Hc).
  rewrite (N.Div0.mul_mod_distr_l P _ c).
  replace (2 * (c * (P mod (q * 2 ^ e))))%N
    with (c * (2 * (P mod (q * 2 ^ e))))%N by lia.
  rewrite (N_mul_compare c _ _ Hc).
  reflexivity.
Qed.

(** X14: a zero at the end of the fraction does not change the key: labels
    such as 3.1 and 3.10 have the same key, the fraction being read as a
    decimal fraction and not as a second number. *)
Theorem sort_key_fraction_trailing_zero a b :
  digits a -> digits b ->
  sort_key (a ++ String "." (b ++ "0")) = sort_key (a ++ String "." b).
Proof.
  intros Ha Hb.
  assert (Hb0 : digits (b ++ "0")).
  { apply digits_append; [exact Hb | split; [reflexivity | discriminate]]. }
  unfold sort_key. rewrite !findall_dotted by assumption.
  unfold key_components, key_component.
  rewrite !remove_first_dotted by apply Ha.
  rewrite !isdigit_digits by (apply digits_append; assumption).
  unfold py_float. rewrite !split_dot_dotted by apply Ha.
  destruct Ha as [Ha Hane], Hb as [Hb Hbne], Hb0 as [Hb0 _].
  rewrite Ha, Hb, Hb0. simpl andb.
  assert (N1 : a ++ b <> "") by (destruct a; [congruence | discriminate]).
  assert (N2 : a ++ b ++ "0" <> "") by (destruct a; [congruence | discriminate]).
  rewrite (eqb_nonempty _ N1), (eqb_nonempty _ N2). simpl negb. cbv iota.
  rewrite <- append_assoc, digits_value_zero, length_append.
  simpl String.length.
  replace (10 ^ N.of_nat (String.length b + 1))%N
    with (10 * 10 ^ N.of_nat (String.length b))%N.
  - rewrite round_scale; [reflexivity | discriminate].
  - rewrite Nat.add_1_r, Nat2N.inj_succ, N.pow_succ_r'. reflexivity.
Qed.

Lemma sort_key_fraction_trailing_zero_witness :
  digits "3" /\ digits "1" /\
  sort_key ("3" ++ String "." ("1" ++ "0")) = sort_key ("3" ++ String "." "1").
Proof.
  assert (A : digits "3") by (split; [reflexivity | discriminate]).
  assert (B : digits "1") by (split; [reflexivity | discriminate]).
  split; [exact A |]. split; [exact B |].
  apply (sort_key_fraction_trailing_zero "3" "1" A B).
Defined.


(** ** Further properties: the release pipelines *)

Lemma result_bind_http_get {B : Type} w url (f : response -> M B) :
  result (bind (http_get w url) f) =
  match requests_get w url with
  | Return r => fst (f r {| requested := [url]; printed := [] |})
  | Raise e => Raise e
  end.
Proof.
  unfold result. rewrite bind_http_get. now destruct (requests_get w url).
Qed.

(** X1: when the API gives a tag, a date that parses and an address, the
    package pipeline returns exactly these and requests nothing else: no
    page is fetched. *)
Theorem pangolin_api_success w r data version published_at published_date html_url :
  requests_get w pangolin_api = Return r ->
  raise_for_status r = Return tt ->
  json r = Return data ->
  data "tag_name" = Return version ->
  data "published_at" = Return published_at ->
  strptime_ymd w published_at = Return published_date ->
  data "html_url" = Return html_url ->
  check_pangolin_version w start =
  (Return (Release version published_date html_url),
   {| requested := [pangolin_api]; printed := [] |}).
Proof.
  intros Hg Hs Hj Ht Hp Hd Hu.
  unfold check_pangolin_version, try_except, pangolin_latest_release.
  rewrite bind_http_get, Hg, bind_lift, Hs, bind_lift, Hj, bind_lift, Ht,
    bind_lift, Hp, bind_lift, Hd, bind_lift, Hu.
  reflexivity.
Qed.

Lemma pangolin_api_success_witness :
  requests_get api_answers pangolin_api = Return release_answer /\
  check_pangolin_version api_answers start =
  (Return (Release (Str "v4.3") "2023-10-30" (Str "https://example.org/v4.3")),
   {| requested := [pangolin_api]; printed := [] |}).
Proof.
  split; [reflexivity |].
  eapply (pangolin_api_success api_answers release_answer); reflexivity.
Defined.

(** X2: the pages are consulted exactly when the API stage fails: the
    package pipeline requests the API address alone if and only if the
    API stage returns, and then its result is the result of that stage. *)
Theorem pangolin_pages_only_after_api_failure w :
  (requests (check_pangolin_version w) = [pangolin_api] <->
   exists d, result (pangolin_latest_release w) = Return d) /\
  (forall d, result (pangolin_latest_release w) = Return d ->
             result (check_pangolin_version w) = Return d).
Proof.
  pose proof (check_pangolin_version_cases w) as C.
  destruct (result (pangolin_latest_release w)) as [d | e].
  - destruct C as [C1 C2]. split.
    + split; [eauto | intros _; exact C2].
    + now intros d' [= <-].
  - destruct C as [C1 _]. split.
    + split.
      * intros H. rewrite C1 in H.
        destruct (requests_releases_page w) as [E | E]; rewrite E in H;
          discriminate.
      * intros (d & H). discriminate.
    + intros d H. discriminate.
Qed.

(** X3: the tool pipeline has one strategy: it makes one request whatever
    happens, and the message of a failure ends with the text of the
    exception of the step that failed, the request, the status, the
    decoding, a missing field or the date, even when the tag was there. *)
Theorem artic_version_single_strategy w :
  requests (check_artic_version w) = [artic_api] /\
  forall msg, result (check_artic_version w) = Return (Error msg) ->
    exists e,
      msg = "Failed to retrieve ARTIC version: " ++ e /\
      (requests_get w artic_api = Raise e \/
       exists r, requests_get w artic_api = Return r /\
         (raise_for_status r = Raise e \/
          json r = Raise e \/
          exists data, json r = Return data /\
            (data "tag_name" = Raise e \/
             data "published_at" = Raise e \/
             (exists p, data "published_at" = Return p /\ strptime_ymd w p = Raise e) \/
             data "html_url" = Raise e))).
Proof.
  split; [apply requests_check_artic_version |].
  intros msg. unfold result, check_artic_version, try_except.
  rewrite bind_http_get.
  destruct (requests_get w artic_api) as [r | e] eqn:Hg.
  2: { intros [= <-]. exists e. split; [reflexivity | now left]. }
  rewrite bind_lift.
  destruct (raise_for_status r) as [[] | e] eqn:Hs.
  2: { intros [= <-]. exists e. split; [reflexivity |]. right. exists r.
       split; [reflexivity | now left]. }
  rewrite bind_lift.
  destruct (json r) as [data | e] eqn:Hj.
  2: { intros [= <-]. exists e. split; [reflexivity |]. right. exists r.
       split; [reflexivity | right; now left]. }
  rewrite bind_lift.
  destruct (data "tag_name") as [v | e] eqn:Ht.
  2: { intros [= <-]. exists e. split; [reflexivity |]. right. exists r.
       split; [reflexivity |]. right. right. exists data.
       split; [exact Hj | now left]. }
  rewrite bind_lift.
  destruct (data "published_at") as [p | e] eqn:Hp.
  2: { intros [= <-]. exists e. split; [reflexivity |]. right. exists r.
       split; [reflexivity |]. right. right. exists data.
       split; [exact Hj | right; now left]. }
  rewrite bind_lift.
  destruct (strptime_ymd w p) as [d | e] eqn:Hd.
  - rewrite bind_lift.
    destruct (data "html_url") as [u | e] eqn:Hu; [discriminate |].
    intros [= <-]. exists e. split; [reflexivity |]. right. exists r.
    split; [reflexivity |]. right. right. exists data.
    split; [exact Hj |]. tauto.
  - intros [= <-]. exists e. split; [reflexivity |]. right. exists r.
    split; [reflexivity |]. right. right. exists data.
    split; [exact Hj |]. right. right. left. eauto.
Qed.

(** X4: a release header in which a version is found gives the version
    without the blanks around it and the address of its tag; the date is
    "Unknown" when the header has no time element or the element has no
    datetime, and a datetime that does not parse turns the whole result
    into a failure, the version being lost. *)
Theorem release_header_with_version w e page header version_tag :
  result (pangolin_latest_release w) = Raise e ->
  requests_get w pangolin_releases = Return page ->
  raise_for_status page = Return tt ->
  first_selected (soup page) selectors = Some header ->
  first_selected header version_selectors = Some version_tag ->
  requests (check_pangolin_version w) = [pangolin_api; pangolin_releases] /\
  result (check_pangolin_version w) =
  let version := PyStr.strip (text version_tag) in
  match select_one header "relative-time" with
  | Some time_tag =>
      if has_attr time_tag "datetime"
      then match fromisoformat_ymd w
                   (PyStr.replace_char "Z" "+00:00" (get_attr time_tag "datetime")) with
           | Return published_date =>
               Return (Release (Str version) published_date
                         (Str (pangolin_tag_url version)))
           | Raise nested_e => Return (Error (chained e nested_e))
           end
      else Return (Release (Str version) "Unknown" (Str (pangolin_tag_url version)))
  | None => Return (Release (Str version) "Unknown" (Str (pangolin_tag_url version)))
  end.
Proof.
  intros HA Hg Hs Hh Hv.
  pose proof (check_pangolin_version_cases w) as C. rewrite HA in C.
  destruct C as [CR CV].
  pose proof (releases_page_cases w) as B. rewrite Hg, Hs, Hh, Hv in B.
  destruct B as [BR BV].
  split; [now rewrite CR, BR |].
  rewrite CV, BV. cbv zeta. unfold result at 1, published_of.
  destruct (select_one header "relative-time") as [time_tag |]; [| reflexivity].
  destruct (has_attr time_tag "datetime"); [| reflexivity].
  unfold lift. simpl.
  now destruct (fromisoformat_ymd w _).
Qed.

Lemma release_header_with_version_witness :
  result (pangolin_latest_release header_with_tag) = Raise "Connection refused" /\
  result (check_pangolin_version header_with_tag) =
  Return (Release (Str "v1.2") "Unknown" (Str (pangolin_tag_url "v1.2"))).
Proof.
  split; [reflexivity |].
  destruct (release_header_with_version header_with_tag "Connection refused"
              page_header_with_tag
              (Element "v1.2" []
                 (fun q' => match q' with
                            | Css "a.Link--primary" => [leaf " v1.2 " []]
                            | _ => []
                            end))
              (leaf " v1.2 " [])
              eq_refl eq_refl eq_refl eq_refl eq_refl) as [_ H].
  exact H.
Defined.

(** ** Further properties: names without blanks, the scan of the links *)

Lemma lstrip_head s :
  match PyStr.lstrip s with
  | String c _ => PyStr.isspace_char c = false
  | EmptyString => True
  end.
Proof.
  induction s as [|c s IH]; simpl; [exact I |].
  destruct (PyStr.isspace_char c) eqn:E; [exact IH | exact E].
Qed.

Lemma rstrip_cons c s :
  PyStr.isspace_char c = false ->
  PyStr.rstrip (String c s) = String c (PyStr.rstrip s).
Proof.
  intros H. simpl. rewrite H. now destruct (PyStr.rstrip s).
Qed.

Lemma rstrip_idempotent s : PyStr.rstrip (PyStr.rstrip s) = PyStr.rstrip s.
Proof.
  induction s as [|c s IH]; [reflexivity |].
  simpl. destruct (PyStr.rstrip s) as [|d r] eqn:E.
  - destruct (PyStr.isspace_char c) eqn:Hc; [reflexivity |].
    simpl. now rewrite Hc.
  - change (PyStr.rstrip (String c (String d r)))
      with (match PyStr.rstrip (String d r) with
            | EmptyString =>
                if PyStr.isspace_char c then EmptyString else String c EmptyString
            | String x y => String c (String x y)
            end).
    now rewrite IH.
Qed.

(** [strip] does nothing to a string that it has stripped. *)
Lemma strip_idempotent s : PyStr.strip (PyStr.strip s) = PyStr.strip s.
Proof.
  unfold PyStr.strip. pose proof (lstrip_head s) as H.
  destruct (PyStr.lstrip s) as [|c t]; [reflexivity |].
  rewrite (rstrip_cons c t H). simpl PyStr.lstrip. rewrite H.
  rewrite <- (rstrip_cons c t H). apply rstrip_idempotent.
Qed.

Lemma any_char_lstrip p s :
  (forall c, p c = true -> PyStr.isspace_char c = false) ->
  PyStr.any_char p (PyStr.lstrip s) = PyStr.any_char p s.
Proof.
  intros H. induction s as [|c s IH]; simpl; [reflexivity |].
  destruct (PyStr.isspace_char c) eqn:E; [| reflexivity].
  rewrite IH. destruct (p c) eqn:Pc; [| reflexivity].
  apply H in Pc. congruence.
Qed.

Lemma any_char_rstrip p s :
  (forall c, p c = true -> PyStr.isspace_char c = false) ->
  PyStr.any_char p (PyStr.rstrip s) = PyStr.any_char p s.
Proof.
  intros H. induction s as [|c s IH]; simpl; [reflexivity |].
  rewrite <- IH. destruct (PyStr.rstrip s) as [|d r]; simpl; [| reflexivity].
  destruct (PyStr.isspace_char c) eqn:E; simpl; [| reflexivity].
  destruct (p c) eqn:Pc; [| reflexivity].
  apply H in Pc. congruence.
Qed.

Lemma contains_char c s :
  PyStr.contains (String c "") s = PyStr.any_char (Ascii.eqb c) s.
Proof.
  induction s as [|d s IH]; simpl; [reflexivity |].
  rewrite IH. destruct (ascii_dec c d) as [-> | N].
  - rewrite Ascii.eqb_refl. now destruct s.
  - apply Ascii.eqb_neq in N. now rewrite N.
Qed.

Lemma contains_v_strip s : PyStr.contains "v" (PyStr.strip s) = PyStr.contains "v" s.
Proof.
  rewrite !contains_char. unfold PyStr.strip.
  assert (H : forall c, Ascii.eqb "v" c = true -> PyStr.isspace_char c = false)
    by (intros c E; apply Ascii.eqb_eq in E; now subst).
  now rewrite any_char_rstrip, any_char_lstrip.
Qed.

Lemma filter_first {A : Type} (f : A -> bool) l x rest :
  filter f l = x :: rest ->
  exists before after,
    l = (before ++ x :: after)%list /\
    Forall (fun y => f y = false) before /\ f x = true.
Proof.
  induction l as [|y l IH]; simpl; [discriminate |].
  destruct (f y) eqn:E.
  - intros [= -> _]. exists [], l. repeat split; [constructor | exact E].
  - intros H. destruct (IH H) as (before & after & -> & F & Hx).
    exists (y :: before), after. repeat split; [now constructor | exact Hx].
Qed.

(** X6: the scan of the links takes the first link, in the order of the
    page, that leads to a release tag and has the letter v in its text;
    the version is that text without the blanks around it, it still has
    the letter v, its address is built from it and its date is "Unknown";
    the scan fails, with its fixed message, exactly when no link passes. *)
Theorem link_scan_takes_first_version_link soup :
  (exists before link after,
     find_all soup "a" None = (before ++ link :: after)%list /\
     Forall (fun l => is_version_link l = false) before /\
     is_version_link link = true /\
     PyStr.contains "v" (PyStr.strip (text link)) = true /\
     result (link_scan soup) =
     Return (Release (Str (PyStr.strip (text link))) "Unknown"
               (Str (pangolin_tag_url (PyStr.strip (text link)))))) \/
  (Forall (fun l => is_version_link l = false) (find_all soup "a" None) /\
   result (link_scan soup) = Return (Error "Could not find Pangolin version information")).
Proof.
  unfold result, link_scan. cbv zeta.
  fold is_version_link.
  destruct (filter is_version_link (find_all soup "a" None)) as [|link rest] eqn:E.
  - right. split; [| reflexivity].
    apply Forall_forall. intros l Hl.
    destruct (is_version_link l) eqn:V; [| reflexivity].
    assert (In l (filter is_version_link (find_all soup "a" None)))
      by (apply filter_In; now split).
    rewrite E in H. contradiction.
  - left. apply filter_first in E.
    destruct E as (before & after & E & F & V).
    exists before, link, after. repeat split; try assumption.
    rewrite contains_v_strip. unfold is_version_link in V.
    now apply andb_true_iff in V.
Qed.

(** A success of the first primer pipeline comes from a fetched page. *)
Lemma sarscov2_success_inv w latest all url :
  result (check_artic_sarscov2_primers w) = Return (Latest latest all url) ->
  exists page,
    requests_get w sarscov2_url = Return page /\
    raise_for_status page = Return tt /\
    sort_versions (chosen_names (box_rows page)) = Return all /\
    Permutation (chosen_names (box_rows page)) all /\
    StronglySorted not_below all /\
    hd_error all = Some latest /\
    url = sarscov2_url ++ "/" ++ latest.
Proof.
  intros H.
  destruct (requests_get w sarscov2_url) as [page | e] eqn:Hg.
  - destruct (raise_for_status page) as [[] | e] eqn:Hs.
    + destruct (sarscov2_on_page w page Hg Hs) as (sorted & E & P & S & R).
      rewrite R in H. destruct sorted as [|x sorted]; [discriminate |].
      injection H as <- <- <-. exists page. now repeat split.
    + unfold result, check_artic_sarscov2_primers, try_except in H.
      rewrite bind_http_get, Hg, bind_lift, Hs in H. discriminate.
  - unfold result, check_artic_sarscov2_primers, try_except in H.
    rewrite bind_http_get, Hg in H. discriminate.
Qed.

(** The second primer pipeline on a page that was fetched. *)
Lemma ncov2019_on_page w page :
  requests_get w ncov2019_url = Return page ->
  raise_for_status page = Return tt ->
  result (check_artic_ncov2019_primers w) =
  Return (if nonempty (detected_versions (soup page))
          then Versions (sorted_or_unchanged (detected_versions (soup page))) ncov2019_url
          else Error "Could not detect ARTIC primer versions from the GitHub page").
Proof.
  intros Hg Hs. unfold result, check_artic_ncov2019_primers, try_except.
  rewrite bind_http_get, Hg, bind_lift, Hs. cbv zeta.
  now destruct (nonempty (detected_versions (soup page))).
Qed.

Lemma ncov2019_success_inv w all url :
  result (check_artic_ncov2019_primers w) = Return (Versions all url) ->
  exists page,
    requests_get w ncov2019_url = Return page /\
    raise_for_status page = Return tt /\
    detected_versions (soup page) <> [] /\
    all = sorted_or_unchanged (detected_versions (soup page)) /\
    url = ncov2019_url.
Proof.
  intros H.
  destruct (requests_get w ncov2019_url) as [page | e] eqn:Hg.
  - destruct (raise_for_status page) as [[] | e] eqn:Hs.
    + rewrite (ncov2019_on_page w page Hg Hs) in H.
      destruct (nonempty (detected_versions (soup page))) eqn:N; [| discriminate].
      injection H as <- <-. exists page. repeat split; try assumption.
      now apply nonempty_spec.
    + unfold result, check_artic_ncov2019_primers, try_except in H.
      rewrite bind_http_get, Hg, bind_lift, Hs in H. discriminate.
  - unfold result, check_artic_ncov2019_primers, try_except in H.
    rewrite bind_http_get, Hg in H. discriminate.
Qed.

Lemma directory_names_stripped rows :
  Forall (fun name => PyStr.strip name = name) (directory_names rows).
Proof.
  induction rows as [|row rows IH]; simpl; [constructor |].
  destruct (find row "svg" _); [| exact IH].
  destruct (find row "a" _); [| exact IH].
  constructor; [apply strip_idempotent | exact IH].
Qed.

Lemma Forall_filter {A : Type} (P : A -> Prop) f (l : list A) :
  Forall P l -> Forall P (filter f l).
Proof.
  intros H. apply Forall_forall. intros x Hx. apply filter_In in Hx.
  rewrite Forall_forall in H. now apply H.
Qed.

Lemma chosen_names_stripped rows :
  Forall (fun name => PyStr.strip name = name) (chosen_names rows).
Proof.
  unfold chosen_names. rewrite version_names_filter.
  destruct (nonempty _);
    [apply Forall_filter |]; apply directory_names_stripped.
Qed.

Lemma link_names_stripped links :
  Forall (fun name => PyStr.strip name = name) (link_names links).
Proof.
  induction links as [|a_tag links IH]; simpl; [constructor |].
  destruct (has_attr a_tag "href" && _ && _); [| exact IH].
  destruct (negb (String.eqb _ "..") && _ && _); [| exact IH].
  constructor; [apply strip_idempotent | exact IH].
Qed.

Lemma role_row_names_stripped rows :
  Forall (fun name => PyStr.strip name = name) (role_row_names rows).
Proof.
  induction rows as [|row rows IH]; simpl; [constructor |].
  destruct (find row "svg" _); [| exact IH].
  destruct (find row "a" None); [| exact IH].
  destruct (negb _); [| exact IH].
  constructor; [apply strip_idempotent | exact IH].
Qed.

Lemma class_row_names_stripped rows :
  Forall (fun name => PyStr.strip name = name) (class_row_names rows).
Proof.
  induction rows as [|row rows IH]; simpl; [constructor |].
  destruct (find row "svg" _); [| exact IH].
  destruct (find row "a" None); [| exact IH].
  constructor; [apply strip_idempotent | exact IH].
Qed.

Lemma detected_versions_stripped soup :
  Forall (fun name => PyStr.strip name = name) (detected_versions soup).
Proof.
  unfold detected_versions. cbv zeta.
  assert (F : Forall (fun name => PyStr.strip name = name)
                (remove_duplicates [] (link_names (find_all soup "a" None)))).
  { apply Forall_forall. intros x Hx. apply remove_duplicates_in in Hx.
    destruct Hx as [Hx _].
    pose proof (link_names_stripped (find_all soup "a" None)) as L.
    rewrite Forall_forall in L. now apply L. }
  destruct (nonempty (remove_duplicates _ _)).
  - destruct (nonempty (remove_duplicates _ _));
      [exact F | apply class_row_names_stripped].
  - destruct (nonempty (role_row_names _));
      [apply role_row_names_stripped | apply class_row_names_stripped].
Qed.

(** X10: the names in the lists of both primer pipelines have no blank at
    either end: stripping one of them again changes nothing. *)
Theorem primer_names_are_stripped w :
  (forall latest all url,
     result (check_artic_sarscov2_primers w) = Return (Latest latest all url) ->
     Forall (fun name => PyStr.strip name = name) all) /\
  (forall all url,
     result (check_artic_ncov2019_primers w) = Return (Versions all url) ->
     Forall (fun name => PyStr.strip name = name) all).
Proof.
  split.
  - intros latest all url H. apply sarscov2_success_inv in H.
    destruct H as (page & _ & _ & _ & P & _).
    eapply Permutation_Forall; [exact P | apply chosen_names_stripped].
  - intros all url H. apply ncov2019_success_inv in H.
    destruct H as (page & _ & _ & _ & -> & _).
    eapply Permutation_Forall;
      [apply sorted_or_unchanged_perm | apply detected_versions_stripped].
Qed.

Lemma primer_names_are_stripped_witness :
  result (check_artic_sarscov2_primers listing_mixed)
    = Return (Latest "V4.1" ["V4.1"; "V3"] (sarscov2_url ++ "/V4.1")) /\
  Forall (fun name => PyStr.strip name = name) ["V4.1"; "V3"].
Proof.
  assert (R : result (check_artic_sarscov2_primers listing_mixed)
              = Return (Latest "V4.1" ["V4.1"; "V3"] (sarscov2_url ++ "/V4.1")))
    by (vm_compute; reflexivity).
  split; [exact R |].
  exact (proj1 (primer_names_are_stripped listing_mixed) _ _ _ R).
Defined.

(** ** Further properties: the primer pipelines *)

(** X8: as soon as one directory of the listing starts like a version, the
    first primer pipeline reports the directories that start like a
    version and no other: the remaining names are dropped. *)
Theorem sarscov2_keeps_versions_only w page :
  requests_get w sarscov2_url = Return page ->
  raise_for_status page = Return tt ->
  filter starts_like_version (directory_names (box_rows page)) <> [] ->
  exists latest sorted,
    result (check_artic_sarscov2_primers w)
      = Return (Latest latest sorted (sarscov2_url ++ "/" ++ latest)) /\
    Permutation (filter starts_like_version (directory_names (box_rows page))) sorted /\
    Forall (fun name => starts_like_version name = true) sorted.
Proof.
  intros Hg Hs Hne.
  destruct (sarscov2_on_page w page Hg Hs) as (sorted & _ & P & _ & R).
  assert (C : chosen_names (box_rows page)
              = filter starts_like_version (directory_names (box_rows page))).
  { unfold chosen_names. rewrite version_names_filter.
    rewrite (filter_ext _ _ is_match_version_re).
    apply nonempty_spec in Hne. now rewrite Hne. }
  rewrite C in P.
  destruct sorted as [|x sorted].
  - apply Permutation_sym, Permutation_nil in P. contradiction.
  - exists x, (x :: sorted). split; [exact R |]. split; [exact P |].
    eapply Permutation_Forall; [exact P |].
    apply Forall_forall. intros y Hy. now apply filter_In in Hy.
Qed.

Lemma sarscov2_keeps_versions_only_witness :
  requests_get listing_mixed sarscov2_url = Return page_mixed /\
  directory_names (box_rows page_mixed) = ["docs"; "V3"; "V4.1"] /\
  exists latest sorted,
    result (check_artic_sarscov2_primers listing_mixed)
      = Return (Latest latest sorted (sarscov2_url ++ "/" ++ latest)) /\
    Permutation (filter starts_like_version (directory_names (box_rows page_mixed)))
      sorted /\
    Forall (fun name => starts_like_version name = true) sorted.
Proof.
  split; [reflexivity |]. split; [reflexivity |].
  apply (sarscov2_keeps_versions_only listing_mixed page_mixed);
    [reflexivity | reflexivity | discriminate].
Defined.

(** X9: in a success of the first primer pipeline, the latest version is
    the first of all the versions, no version has a greater key, the
    versions are in descending order of their keys, and the address is
    the directory followed by the latest version. *)
Theorem sarscov2_latest_is_greatest w latest all url :
  result (check_artic_sarscov2_primers w) = Return (Latest latest all url) ->
  hd_error all = Some latest /\
  Forall (not_below latest) all /\
  StronglySorted not_below all /\
  url = sarscov2_url ++ "/" ++ latest.
Proof.
  intros H. apply sarscov2_success_inv in H.
  destruct H as (page & _ & _ & _ & _ & S & Hh & ->).
  repeat split; try assumption.
  destruct all as [|x all]; [discriminate |]. injection Hh as ->.
  inversion S; subst. constructor; [apply key_ltb_irrefl | assumption].
Qed.

Lemma sarscov2_latest_is_greatest_witness :
  result (check_artic_sarscov2_primers listing_V1_V2)
    = Return (Latest "V2" ["V2"; "V1"] (sarscov2_url ++ "/V2")) /\
  Forall (not_below "V2") ["V2"; "V1"].
Proof.
  assert (R : result (check_artic_sarscov2_primers listing_V1_V2)
              = Return (Latest "V2" ["V2"; "V1"] (sarscov2_url ++ "/V2")))
    by (vm_compute; reflexivity).
  split; [exact R |].
  exact (proj1 (proj2 (sarscov2_latest_is_greatest listing_V1_V2 _ _ _ R))).
Defined.

(** X11: on a page that is fetched, the second primer pipeline fails, with
    its own message, exactly when the three searches find nothing;
    otherwise it returns the names found, in descending order of their
    keys with equal keys in the order of the page, and the address of the
    directory. *)
Theorem ncov2019_result_on_page w page :
  requests_get w ncov2019_url = Return page ->
  raise_for_status page = Return tt ->
  (detected_versions (soup page) = [] ->
   result (check_artic_ncov2019_primers w)
     = Return (Error "Could not detect ARTIC primer versions from the GitHub page")) /\
  (detected_versions (soup page) <> [] ->
   exists sorted,
     result (check_artic_ncov2019_primers w) = Return (Versions sorted ncov2019_url) /\
     sort_versions (detected_versions (soup page)) = Return sorted /\
     StronglySorted not_below sorted /\
     forall k, filter (key_equiv k) sorted
               = filter (key_equiv k) (detected_versions (soup page))).
Proof.
  intros Hg Hs. rewrite (ncov2019_on_page w page Hg Hs). split.
  - now intros ->.
  - intros N.
    destruct (sort_versions_spec (detected_versions (soup page)))
      as (sorted & E & _ & S & St).
    exists sorted. apply nonempty_spec in N. rewrite N.
    unfold sorted_or_unchanged. rewrite E. now repeat split.
Qed.

Lemma ncov2019_result_on_page_witness :
  requests_get listing_by_role ncov2019_url = Return page_by_role /\
  raise_for_status page_by_role = Return tt /\
  detected_versions (soup page_by_role) <> [] /\
  exists sorted,
    result (check_artic_ncov2019_primers listing_by_role)
      = Return (Versions sorted ncov2019_url) /\
    sort_versions (detected_versions (soup page_by_role)) = Return sorted /\
    StronglySorted not_below sorted /\
    forall k, filter (key_equiv k) sorted
              = filter (key_equiv k) (detected_versions (soup page_by_role)).
Proof.
  split; [reflexivity |]. split; [reflexivity |].
  assert (N : detected_versions (soup page_by_role) <> []) by discriminate.
  split; [exact N |].
  exact (proj2 (ncov2019_result_on_page listing_by_role page_by_role
                  eq_refl eq_refl) N).
Defined.

(** X12: removing the duplicates twice is removing them once, and a list
    without repetition is left as it is. *)
Theorem remove_duplicates_idempotent versions :
  remove_duplicates [] (remove_duplicates [] versions) = remove_duplicates [] versions /\
  (NoDup versions -> remove_duplicates [] versions = versions).
Proof.
  split.
  - apply remove_duplicates_id; [apply remove_duplicates_NoDup | reflexivity].
  - intros N. now apply remove_duplicates_id.
Qed.

Lemma remove_duplicates_idempotent_witness :
  NoDup ["V3"; "V1"; "V2"] /\
  remove_duplicates [] ["V3"; "V1"; "V2"] = ["V3"; "V1"; "V2"].
Proof.
  assert (N : NoDup ["V3"; "V1"; "V2"]).
  { repeat constructor; simpl; intros H;
      repeat (destruct H as [H | H]; [discriminate |]); exact H. }
  split; [exact N |].
  exact (proj2 (remove_duplicates_idempotent ["V3"; "V1"; "V2"]) N).
Defined.


(** ** Further properties: the tags page and the report *)

(** X5: when no release header is found, the first row of the tags page
    gives the version if it holds a tag link: the text of the link without
    the blanks around it, the address of its tag, and the date of the row,
    "Unknown" without a time element or a datetime, a failure if the
    datetime does not parse. *)
Theorem tags_row_with_version w e releases page tag_element tag_link :
  result (pangolin_latest_release w) = Raise e ->
  requests_get w pangolin_releases = Return releases ->
  raise_for_status releases = Return tt ->
  first_selected (soup releases) selectors = None ->
  requests_get w pangolin_tags = Return page ->
  raise_for_status page = Return tt ->
  select_one (soup page) "div.Box-row" = Some tag_element ->
  select_one tag_element release_link = Some tag_link ->
  requests (check_pangolin_version w)
    = [pangolin_api; pangolin_releases; pangolin_tags] /\
  result (check_pangolin_version w) =
  let version := PyStr.strip (text tag_link) in
  match select_one tag_element "relative-time" with
  | Some time_element =>
      if has_attr time_element "datetime"
      then match fromisoformat_ymd w
                   (PyStr.replace_char "Z" "+00:00" (get_attr time_element "datetime")) with
           | Return published_date =>
               Return (Release (Str version) published_date
                         (Str (pangolin_tag_url version)))
           | Raise nested_e => Return (Error (chained e nested_e))
           end
      else Return (Release (Str version) "Unknown" (Str (pangolin_tag_url version)))
  | None => Return (Release (Str version) "Unknown" (Str (pangolin_tag_url version)))
  end.
Proof.
  intros HA Hg Hs Hh Hg' Hs' Hr Hl.
  pose proof (check_pangolin_version_cases w) as C. rewrite HA in C.
  destruct C as [CR CV].
  pose proof (releases_page_cases w) as B. rewrite Hg, Hs, Hh in B.
  destruct B as [BV BR].
  pose proof (tags_page_cases w) as T. rewrite Hg', Hs', Hr, Hl in T.
  split; [now rewrite CR, BR |].
  rewrite CV, BV, T. cbv zeta. unfold result at 1, published_of.
  destruct (select_one tag_element "relative-time") as [time_element |];
    [| reflexivity].
  destruct (has_attr time_element "datetime"); [| reflexivity].
  unfold lift. simpl.
  now destruct (fromisoformat_ymd w _).
Qed.

Lemma tags_row_with_version_witness :
  result (pangolin_latest_release tags_only) = Raise "Connection refused" /\
  result (check_pangolin_version tags_only) =
  Return (Release (Str "v4.3.1") "2023-10-30" (Str (pangolin_tag_url "v4.3.1"))).
Proof.
  split; [reflexivity |].
  destruct (tags_row_with_version tags_only "Connection refused"
              (page (fun _ => [])) page_tag_row
              (Element "v4.3.1" []
                 (fun q' => match q' with
                            | Css "relative-time" =>
                                [leaf "yesterday" [("datetime", "2023-10-30T12:00:00Z")]]
                            | Css _ => [leaf "v4.3.1" []]
                            | _ => []
                            end))
              (leaf "v4.3.1" [])
              eq_refl eq_refl eq_refl eq_refl eq_refl eq_refl eq_refl eq_refl)
    as [_ H].
  exact H.
Defined.

Lemma requests_pangolin_shape w :
  exists pages,
    requests (check_pangolin_version w) = pangolin_api :: pages /\
    (pages = [] \/ pages = [pangolin_releases] \/
     pages = [pangolin_releases; pangolin_tags]).
Proof.
  pose proof (check_pangolin_version_cases w) as C.
  destruct (result (pangolin_latest_release w)) as [d | e].
  - destruct C as [_ ->]. exists []. auto.
  - destruct C as [-> _]. eexists. split; [reflexivity |].
    destruct (requests_releases_page w) as [-> | ->]; auto.
Qed.

(** X16: in a run of [main] that completes, no address is requested
    twice: the API of the package comes first, then the releases page and
    the tags page if they are needed, then the API of the tool and the
    page of the second primer set, between three and five requests in
    all. *)
Theorem main_requests_each_address_once w :
  result (main w) = Return tt ->
  exists pages,
    requests (main w) = (pangolin_api :: pages ++ [artic_api; ncov2019_url])%list /\
    (pages = [] \/ pages = [pangolin_releases] \/
     pages = [pangolin_releases; pangolin_tags]) /\
    NoDup (requests (main w)).
Proof.
  intros Done.
  destruct (pangolin_result w) as (p & Hp & Sp).
  destruct (artic_result w) as (a & Ha & Sa).
  destruct (ncov2019_result w) as (s & Hs & _).
  pose proof (main_inv w p a s Hp Ha Hs Done) as F.
  destruct (requests_pangolin_shape w) as (pages & E & Hpages).
  assert (R : requests (main w)
              = (pangolin_api :: pages ++ [artic_api; ncov2019_url])%list).
  { unfold requests at 1. rewrite (main_run w p a s Hp Sp Ha Sa Hs F).
    cbn [snd requested List.concat].
    rewrite E, requests_check_artic_version, requests_check_artic_ncov2019_primers.
    reflexivity. }
  exists pages. split; [exact R |]. split; [exact Hpages |].
  rewrite R.
  destruct Hpages as [-> | [-> | ->]]; simpl;
    repeat constructor; simpl; intros H;
    repeat (destruct H as [H | H]; [discriminate |]); exact H.
Qed.

Lemma main_requests_each_address_once_witness :
  result (main offline) = Return tt /\
  NoDup (requests (main offline)).
Proof.
  assert (R : result (main offline) = Return tt) by reflexivity.
  split; [exact R |].
  destruct (main_requests_each_address_once offline R) as (pages & _ & _ & N).
  exact N.
Defined.

(** X17: when the second primer pipeline succeeds and the run of [main]
    completes, the report ends with the title of the list, one line for
    each version in the order of the list, the address, and the closing
    rule. *)
Theorem main_lists_every_version w all url :
  result (check_artic_ncov2019_primers w) = Return (Versions all url) ->
  result (main w) = Return tt ->
  exists before,
    output (main w) =
    (before ++ "  Available primer versions:"
       :: map version_line all
       ++ [("  URL: " ++ url)%string; (nl ++ rule "=")%string])%list.
Proof.
  intros Hs Done.
  destruct (pangolin_result w) as (p & Hp & Sp).
  destruct (artic_result w) as (a & Ha & Sa).
  pose proof (main_inv w p a _ Hp Ha Hs Done) as F.
  unfold output at 1. rewrite (main_run w p a _ Hp Sp Ha Sa Hs F).
  cbn [snd printed]. unfold report.
  exists ([rule "="; "CHECKING LATEST VERSIONS OF SARS-CoV-2 TOOLS"; rule "=";
           (nl ++ "1. Pangolin Repository")%string; rule "-"]
          ++ release_lines p
          ++ [(nl ++ "2. ARTIC Field Bioinformatics")%string; rule "-"]
          ++ release_lines a
          ++ [(nl ++ "3. ARTIC nCoV-2019 Primer Schemes")%string; rule "-"])%list.
  cbn [schemes_lines].
  repeat (rewrite <- app_assoc; cbn [app]).
  reflexivity.
Qed.

Lemma main_lists_every_version_witness :
  result (check_artic_ncov2019_primers listing_by_role)
    = Return (Versions ["V1"; "V1"; ".."] ncov2019_url) /\
  result (main listing_by_role) = Return tt /\
  exists before,
    output (main listing_by_role) =
    (before ++ "  Available primer versions:"
       :: map version_line ["V1"; "V1"; ".."]
       ++ [("  URL: " ++ ncov2019_url)%string; (nl ++ rule "=")%string])%list.
Proof.
  assert (R : result (check_artic_ncov2019_primers listing_by_role)
              = Return (Versions ["V1"; "V1"; ".."] ncov2019_url))
    by (vm_compute; reflexivity).
  assert (D : result (main listing_by_role) = Return tt)
    by (vm_compute; reflexivity).
  split; [exact R |]. split; [exact D |].
  exact (main_lists_every_version listing_by_role _ _ R D).
Defined.
